(** * CareNow symptom-analysis service: a shallow embedding of
      [src/ai_service.py], [src/llm/rag_system.py], [src/main.py] and
      [src/models.py].

    Python strings are sequences of Unicode code points; they are modelled
    as [list Z] ([pystr]).  Literals are written as UTF-8 Rocq strings and
    decoded by [u], so that lengths and slices count code points as Python
    does.  Exceptions are modelled by the result type [res]; Python values
    produced by the JSON output parser by [pyval]. *)

From Stdlib Require Import String Ascii List ZArith Lia Bool.
From Stdlib Require Import DecimalString.
Import ListNotations.
Open Scope Z_scope.

(* ------------------------------------------------------------------ *)
(** ** Python strings *)

Definition pystr := list Z.

Definition byte_val (a : ascii) : Z := Z.of_nat (nat_of_ascii a).

(** UTF-8 decoding of a Rocq string literal into code points. *)
Fixpoint u (s : string) : pystr :=
  match s with
  | EmptyString => []
  | String a r =>
      let b := byte_val a in
      if b <? 128 then b :: u r
      else if b <? 224 then
        match r with
        | String a2 r2 => ((b - 192) * 64 + (byte_val a2 - 128)) :: u r2
        | EmptyString => [b]
        end
      else if b <? 240 then
        match r with
        | String a2 (String a3 r3) =>
            ((b - 224) * 4096 + (byte_val a2 - 128) * 64
             + (byte_val a3 - 128)) :: u r3
        | _ => [b]
        end
      else
        match r with
        | String a2 (String a3 (String a4 r4)) =>
            ((b - 240) * 262144 + (byte_val a2 - 128) * 4096
             + (byte_val a3 - 128) * 64 + (byte_val a4 - 128)) :: u r4
        | _ => [b]
        end
  end.

Definition nl : pystr := [10].
Definition dq : pystr := [34].
Definition lbrace : Z := 123.
Definition rbrace : Z := 125.

Definition pystr_eqb (a b : pystr) : bool :=
  if list_eq_dec Z.eq_dec a b then true else false.

(** [sep.join(l)] *)
Fixpoint join (sep : pystr) (l : list pystr) : pystr :=
  match l with
  | [] => []
  | [x] => x
  | x :: r => x ++ sep ++ join sep r
  end.

(** Text split at double quotes: [qtext [a; b; c]] is a"b"c. *)
Definition qtext (l : list string) : pystr := join dq (map u l).

(** [s.replace(c, by)] for a one-character [c]. *)
Definition py_replace_char (c : Z) (by_ : pystr) (s : pystr) : pystr :=
  flat_map (fun x => if x =? c then by_ else [x]) s.

(** [s[:n]] for [n >= 0]. *)
Definition py_slice_to (s : pystr) (n : nat) : pystr := firstn n s.

(** Association-list lookup (first binding wins). *)
Fixpoint assoc {A} (k : pystr) (l : list (pystr * A)) : option A :=
  match l with
  | [] => None
  | (k', v) :: r => if pystr_eqb k k' then Some v else assoc k r
  end.

(* ------------------------------------------------------------------ *)
(** ** Exceptions *)

(** [OracleError] stands for any exception of an external service (the
    language model, the embedding model); [StoreError] for one raised by
    Chroma. *)
Inductive exn_kind :=
  | TypeError | KeyError | ValueError | AttributeError
  | OutputParserException | OracleError | StoreError.

Record exn := Exn { exn_type : exn_kind; exn_msg : pystr }.

(** [str(e)] *)
Definition exn_str (e : exn) : pystr := exn_msg e.

Inductive res (A : Type) : Type :=
  | Ok (a : A)
  | Raise (e : exn).
Arguments Ok {A} a.
Arguments Raise {A} e.

Definition res_bind {A B} (m : res A) (k : A -> res B) : res B :=
  match m with
  | Ok a => k a
  | Raise e => Raise e
  end.

Notation "x <- m ;; k" := (res_bind m (fun x => k))
  (at level 61, m at next level, right associativity).

Fixpoint res_mapM {A B} (f : A -> res B) (l : list A) : res (list B) :=
  match l with
  | [] => Ok []
  | x :: r => y <- f x ;; ys <- res_mapM f r ;; Ok (y :: ys)
  end.

(* ------------------------------------------------------------------ *)
(** ** Python values (as produced by the JSON output parser) *)

Set Warnings "-register-all".

(** JSON numbers are restricted to integers. *)
Inductive pyval :=
  | PNone
  | PBool (b : bool)
  | PInt (z : Z)
  | PStr (s : pystr)
  | PList (l : list pyval)
  | PDict (kv : list (pystr * pyval)).

Definition hexdig (n : Z) : Z := if n <? 10 then 48 + n else 87 + n.

(** [repr] of a string: single quotes unless the text holds a single quote
    and no double quote; backslash, the quote, tab, newline and carriage
    return escaped, the other non-printable code points below 256 (below
    32, 127..160 and 173) as [\xNN].  Code points from 256 on are all kept:
    this departs from Python, which writes the non-printable ones among
    them (such as U+200B or U+2028) as [\uNNNN]; the texts formatted with
    it here are dictionary keys and field names. *)
Definition str_repr (s : pystr) : pystr :=
  let q := if existsb (Z.eqb 39) s && negb (existsb (Z.eqb 34) s)
           then 34 else 39 in
  let esc (c : Z) : pystr :=
    if c =? 92 then [92; 92]
    else if c =? q then [92; q]
    else if c =? 9 then [92; 116]
    else if c =? 10 then [92; 110]
    else if c =? 13 then [92; 114]
    else if (c <? 32) || ((127 <=? c) && (c <=? 160)) || (c =? 173)
    then [92; 120; hexdig (c / 16); hexdig (c mod 16)]
    else [c] in
  [q] ++ flat_map esc s ++ [q].

Definition z_decimal (z : Z) : pystr :=
  u (NilEmpty.string_of_int (Z.to_int z)).

(** [repr(v)] *)
Fixpoint py_repr (v : pyval) : pystr :=
  match v with
  | PNone => u "None"
  | PBool true => u "True"
  | PBool false => u "False"
  | PInt z => z_decimal z
  | PStr s => str_repr s
  | PList l => u "[" ++ join (u ", ") (map py_repr l) ++ u "]"
  | PDict kv =>
      u "{" ++ join (u ", ")
        (map (fun kx => str_repr (fst kx) ++ u ": " ++ py_repr (snd kx)) kv)
      ++ u "}"
  end.

(** [str(v)], which is also what an f-string interpolation produces. *)
Definition py_str (v : pyval) : pystr :=
  match v with
  | PStr s => s
  | _ => py_repr v
  end.

(** Python truthiness. *)
Definition truthy (v : pyval) : bool :=
  match v with
  | PNone => false
  | PBool b => b
  | PInt z => negb (z =? 0)
  | PStr s => negb (Nat.eqb (length s) 0)
  | PList l => negb (Nat.eqb (length l) 0)
  | PDict kv => negb (Nat.eqb (length kv) 0)
  end.

(** [for x in v]: strings yield their characters, dicts their keys. *)
Definition py_iter (v : pyval) : res (list pyval) :=
  match v with
  | PStr s => Ok (map (fun c => PStr [c]) s)
  | PList l => Ok l
  | PDict kv => Ok (map (fun kx => PStr (fst kx)) kv)
  | _ => Raise (Exn TypeError (u "object is not iterable"))
  end.

(** [sep.join(items)]: every item must be a string. *)
Definition str_join (sep : pystr) (items : list pyval) : res pystr :=
  ss <- res_mapM (fun v => match v with
                           | PStr s => Ok s
                           | _ => Raise (Exn TypeError
                                          (u "sequence item: expected str instance"))
                           end) items ;;
  Ok (join sep ss).

(** [d.get(k, default)] on a dict *)
Definition dict_get (d : list (pystr * pyval)) (k : pystr) (default : pyval)
  : pyval :=
  match assoc k d with Some v => v | None => default end.

(** [v.get(k, default)] on any value *)
Definition py_get (v : pyval) (k : pystr) (default : pyval) : res pyval :=
  match v with
  | PDict d => Ok (dict_get d k default)
  | _ => Raise (Exn AttributeError (u "object has no attribute 'get'"))
  end.

(** [v[k]] with a string key *)
Definition py_getitem (v : pyval) (k : pystr) : res pyval :=
  match v with
  | PDict d =>
      match assoc k d with
      | Some x => Ok x
      | None => Raise (Exn KeyError (str_repr k))
      end
  | _ => Raise (Exn TypeError (u "indices must be integers"))
  end.

(** [table.get(v, default)] on a dict with string keys *)
Definition str_table_get (table : list (pystr * pystr)) (v : pyval)
  (default : pystr) : res pystr :=
  match v with
  | PList _ | PDict _ => Raise (Exn TypeError (u "unhashable type"))
  | PStr s => Ok (match assoc s table with Some e => e | None => default end)
  | _ => Ok default
  end.

(* ------------------------------------------------------------------ *)
(** ** [src/ai_service.py]: urgency mapping and response formatting *)

Definition tier_emergency : pystr := u "응급실".
Definition tier_urgent : pystr := u "외래진료".
Definition tier_observation : pystr := u "자가관찰".

Definition disclaimer : pystr :=
  u "💡 이 정보는 응급 가이드이며, 의학적 진단을 대체하지 않습니다.".

(** Keys of the analysis and result mappings. *)
Definition k_urgency_level : pystr := Eval vm_compute in u "urgency_level".
Definition k_urgency_reason : pystr := Eval vm_compute in u "urgency_reason".
Definition k_departments : pystr := Eval vm_compute in u "departments".
Definition k_immediate_actions : pystr := Eval vm_compute in u "immediate_actions".
Definition k_precautions : pystr := Eval vm_compute in u "precautions".
Definition k_friendly_message : pystr := Eval vm_compute in u "friendly_message".
Definition k_response : pystr := Eval vm_compute in u "response".

(** [map_urgency_level] *)
Definition map_urgency_level (level : pystr) : pystr :=
  let mapping := [(u "emergency", tier_emergency);
                  (u "urgent", tier_urgent);
                  (u "observation", tier_observation)] in
  match assoc level mapping with
  | Some v => v
  | None => tier_observation
  end.

Definition bullet (x : pystr) : pystr := u "  • " ++ x.

(** A section of [format_response] guarded by [if items:]: a header, one
    line per item and a blank line. *)
Definition list_section (header : pystr) (line : pyval -> pystr) (v : pyval)
  : res (list pyval) :=
  if truthy v then
    items <- py_iter v ;;
    Ok ([PStr header] ++ map (fun x => PStr (line x)) items ++ [PStr []])
  else Ok [].

(** [format_response(analysis)].  The list [parts] holds Python values:
    [friendly_message] is appended as it is, and the final ["\n".join]
    raises when it is not a string. *)
Definition format_response (analysis : pyval) : res pystr :=
  let urgency_emoji := [(tier_emergency, u "🔴");
                        (tier_urgent, u "🟡");
                        (tier_observation, u "🟢")] in
  lvl <- py_get analysis k_urgency_level (PStr tier_observation) ;;
  emoji <- str_table_get urgency_emoji lvl (u "💡") ;;
  friendly <- py_get analysis k_friendly_message
                (PStr (u "증상 분석을 완료했습니다.")) ;;
  lvl' <- py_get analysis k_urgency_level (PStr tier_observation) ;;
  reason <- py_get analysis k_urgency_reason (PStr []) ;;
  let head := [friendly; PStr [];
               PStr (emoji ++ u " 응급도: " ++ py_str lvl');
               PStr (u "└─ " ++ py_str reason); PStr []] in
  depts <- py_get analysis k_departments (PList []) ;;
  dsec <- (if truthy depts then
             ds <- py_iter depts ;;
             j <- str_join (u ", ") ds ;;
             Ok [PStr (u "📋 추천 진료과"); PStr (u "└─ " ++ j); PStr []]
           else Ok []) ;;
  actions <- py_get analysis k_immediate_actions (PList []) ;;
  asec <- list_section (u "✅ 즉시 취해야 할 조치")
            (fun a => bullet (py_str a)) actions ;;
  precautions <- py_get analysis k_precautions (PList []) ;;
  psec <- list_section (u "⚠️ 주의사항") (fun p => bullet (py_str p)) precautions ;;
  str_join nl (head ++ dsec ++ asec ++ psec ++ [PStr disclaimer]).

(** The routing dict produced by [route_patient] (module [symptom_routing],
    which is not part of the sources); only the keys read here. *)
Record Urgency := {
  level : pystr;
  label : pystr;
  reason : pystr;
  action : pystr
}.

Record Routing := {
  primary_department : pystr;
  urgency : Urgency
}.

Definition has_context (medical_context : pystr) : bool :=
  Nat.ltb 100 (length medical_context).

(** The list [parts] built by [format_fallback_response]. *)
Definition fallback_parts (routing : Routing) (medical_context : pystr)
  : list pystr :=
  let urg := urgency routing in
  let dept := primary_department routing in
  let urgency_emoji := [(u "emergency", u "🔴");
                        (u "urgent", u "🟡");
                        (u "observation", u "🟢")] in
  let emoji := match assoc (level urg) urgency_emoji with
               | Some e => e | None => u "💡" end in
  [u "증상 분석을 완료했습니다."; [];
   emoji ++ u " 응급도: " ++ label urg;
   u "└─ " ++ reason urg;
   [];
   u "📋 추천 진료과";
   u "└─ " ++ dept;
   [];
   u "✅ 즉시 취해야 할 조치";
   bullet (action urg)]
  ++ (if has_context medical_context
      then [u "  • 의료 지식베이스를 참고하여 적절한 응급처치를 하세요"]
      else [])
  ++ [u "  • 증상을 관찰하고 악화되면 병원 방문";
      [];
      u "⚠️ 주의사항";
      u "  • 증상 변화를 주의 깊게 관찰하세요";
      u "  • 악화되거나 48시간 이상 지속되면 병원 방문";
      [];
      disclaimer].

(** [format_fallback_response(routing, medical_context)] *)
Definition format_fallback_response (routing : Routing) (medical_context : pystr)
  : pystr :=
  join nl (fallback_parts routing medical_context).

(* ------------------------------------------------------------------ *)
(** ** f-string prompt templates ([ChatPromptTemplate], [string.Formatter]) *)

(** A replacement field as [string.Formatter().parse] reports it: the
    field name, the conversion character after [!] (if any) and the format
    spec after [:] (empty if none). *)
Record field := {
  fname : pystr;
  fconv : option Z;
  fspec : pystr
}.

(** One item of [string.Formatter().parse]: literal text and, when a
    replacement field follows, the field. *)
Definition piece := (pystr * option field)%type.

(** States of CPython's [MarkupIterator_next] and [parse_field]
    ([Objects/stringlib/unicode_format.h]); each carries the literal text
    read before the field. *)
Inductive pmode :=
  | MLit (acc : pystr)
  | MName (lit name : pystr)
  | MIndex (lit name : pystr)
  | MConv (lit name : pystr)
  | MConvEnd (lit name : pystr) (conv : Z)
  | MSpec (lit name : pystr) (conv : option Z) (spec : pystr) (depth : nat).

Definition lbracket : Z := 91.
Definition rbracket : Z := 93.
Definition colon : Z := 58.
Definition bang : Z := 33.

Definition err_single_rbrace : exn :=
  Exn ValueError (u "Single '}' encountered in format string").
Definition err_single_lbrace : exn :=
  Exn ValueError (u "Single '{' encountered in format string").
Definition err_expected_rbrace : exn :=
  Exn ValueError (u "expected '}' before end of string").
Definition err_unexpected_lbrace : exn :=
  Exn ValueError (u "unexpected '{' in field name").
Definition err_conversion_end : exn :=
  Exn ValueError (u "end of string while looking for conversion specifier").
Definition err_expected_colon : exn :=
  Exn ValueError (u "expected ':' after conversion specifier").
Definition err_unmatched_spec : exn :=
  Exn ValueError (u "unmatched '{' in format spec").

Definition res_cons {A} (x : A) (r : res (list A)) : res (list A) :=
  xs <- r ;; Ok (x :: xs).

Fixpoint fparse_go (m : pmode) (s : pystr) : res (list piece) :=
  match m, s with
  | MLit acc, [] =>
      Ok (match acc with [] => [] | _ => [(acc, None)] end)
  | MLit acc, c :: r =>
      if c =? rbrace then
        match r with
        | c' :: r' =>
            if c' =? rbrace then res_cons (acc ++ [rbrace], None) (fparse_go (MLit []) r')
            else Raise err_single_rbrace
        | [] => Raise err_single_rbrace
        end
      else if c =? lbrace then
        match r with
        | [] => Raise err_single_lbrace
        | c' :: r' =>
            if c' =? lbrace then res_cons (acc ++ [lbrace], None) (fparse_go (MLit []) r')
            else fparse_go (MName acc []) r
        end
      else fparse_go (MLit (acc ++ [c])) r
  (* the field name runs to [}], [:] or [!]; [[...]] is skipped whole *)
  | MName _ _, [] => Raise err_expected_rbrace
  | MName lit name, c :: r =>
      if c =? lbrace then Raise err_unexpected_lbrace
      else if c =? lbracket then fparse_go (MIndex lit (name ++ [c])) r
      else if c =? rbrace then
        res_cons (lit, Some {| fname := name; fconv := None; fspec := [] |})
          (fparse_go (MLit []) r)
      else if c =? colon then fparse_go (MSpec lit name None [] 1) r
      else if c =? bang then fparse_go (MConv lit name) r
      else fparse_go (MName lit (name ++ [c])) r
  | MIndex _ _, [] => Raise err_expected_rbrace
  | MIndex lit name, c :: r =>
      if c =? rbracket then fparse_go (MName lit (name ++ [c])) r
      else fparse_go (MIndex lit (name ++ [c])) r
  (* after [!]: one conversion character, then [}] or [:] *)
  | MConv _ _, [] => Raise err_conversion_end
  | MConv lit name, c :: r => fparse_go (MConvEnd lit name c) r
  | MConvEnd _ _ _, [] => Raise err_unmatched_spec
  | MConvEnd lit name cv, c :: r =>
      if c =? rbrace then
        res_cons (lit, Some {| fname := name; fconv := Some cv; fspec := [] |})
          (fparse_go (MLit []) r)
      else if c =? colon then fparse_go (MSpec lit name (Some cv) [] 1) r
      else Raise err_expected_colon
  (* the format spec runs to the matching [}], nested braces counted *)
  | MSpec _ _ _ _ _, [] => Raise err_unmatched_spec
  | MSpec lit name cv spec d, c :: r =>
      if c =? lbrace then fparse_go (MSpec lit name cv (spec ++ [c]) (S d)) r
      else if c =? rbrace then
        if Nat.eqb d 1 then
          res_cons (lit, Some {| fname := name; fconv := cv; fspec := spec |})
            (fparse_go (MLit []) r)
        else fparse_go (MSpec lit name cv (spec ++ [c]) (pred d)) r
      else fparse_go (MSpec lit name cv (spec ++ [c]) d) r
  end.

(** [string.Formatter().parse(template)], run to the end as LangChain's
    [get_template_variables] does. *)
Definition fparse (s : pystr) : res (list piece) := fparse_go (MLit []) s.

(** The literal text a parser state carries, and the same state with that
    text dropped. *)
Definition mode_lit (m : pmode) : pystr :=
  match m with
  | MLit l | MName l _ | MIndex l _ | MConv l _ | MConvEnd l _ _ | MSpec l _ _ _ _ => l
  end.

Definition mode_drop_lit (m : pmode) : pmode :=
  match m with
  | MLit _ => MLit []
  | MName _ n => MName [] n
  | MIndex _ n => MIndex [] n
  | MConv _ n => MConv [] n
  | MConvEnd _ n c => MConvEnd [] n c
  | MSpec _ n c sp d => MSpec [] n c sp d
  end.

(** The names of the replacement fields of a parsed template: the
    template's input variables. *)
Definition template_variables (ps : list piece) : list pystr :=
  flat_map (fun p : piece => match snd p with Some f => [fname f] | None => [] end) ps.

(** [StrictFormatter().format(template, message=...)] on a parsed template
    whose fields are all named [message].  A field with no conversion and
    an empty spec gives the value itself; a field with a conversion or a
    spec is rendered by [render] ([Formatter.convert_field], the expansion
    of the nested spec and [format_field], which depend on the Python
    version). *)
Definition fformat (render : field -> pystr -> res pystr) (pieces : list piece)
  (message : pystr) : res pystr :=
  parts <- res_mapM (fun p : piece =>
             match snd p with
             | None => Ok (fst p)
             | Some f =>
                 if pystr_eqb (fname f) (u "message") then
                   match fconv f, fspec f with
                   | None, [] => Ok (fst p ++ message)
                   | _, _ => v <- render f message ;; Ok (fst p ++ v)
                   end
                 else Raise (Exn KeyError (str_repr (fname f)))
             end) pieces ;;
  Ok (concat parts).

(** [format_instructions.replace("{", "{{").replace("}", "}}")] *)
Definition escape_braces (s : pystr) : pystr :=
  py_replace_char rbrace [rbrace; rbrace] (py_replace_char lbrace [lbrace; lbrace] s).
Definition sp_text_intro : pystr := qtext [
"당신은 일상 응급 상황에 대응하는 1차 의료 상담 전문가 'CareNow'입니다.

# 자동 분석 참고 정보
- AI 추천 진료과: "%string
].

Definition sp_text_label : pystr := qtext [
"
- AI 응급도 평가: "%string
].

Definition sp_text_reason : pystr := qtext [
"
- AI 평가 근거: "%string
].

Definition sp_text_before_rag : pystr := qtext [
"

"%string
].

Definition sp_text_guide : pystr := qtext [
"

# 역할과 대상
- 사용자는 영유아, 소아, 성인 모두 포함될 수 있습니다.
- 환자 나이가 주어지면 나이에 맞는 표현과 진료과를 선택하세요.
- 환자 나이가 없으면 "%string;
"일반 성인 기준"%string;
"으로 판단하되,
  명백히 아이 관련 표현(예: 아이, 아기, 우리 애)이 있으면 소아 기준으로 판단하세요.

# 응급도 분류 기준 (균형잡힌 접근)

🔴 응급실 (즉시 방문) - 약 10%
- 호흡곤란, 의식저하, 경련, 심한 출혈
- 40도 이상 고열 + 의식 변화
- 심한 가슴통증(쥐어짜는 느낌), 심한 알레르기 반응
- 머리 외상 후 의식 소실, 반복적인 구토

🟡 외래진료 (24~48시간 내 방문) - 약 45%
- 고열 지속 (39도 이상, 2~3일 이상)
- 참기 힘든 통증 (너무 아프다, 못 참겠다 등)
- 하루 종일 계속되는 구토/설사로 탈수가 걱정되는 경우
- 골절이 의심되거나, 심한 타박상·관절 부종 등
- 증상이 점점 심해지거나, 보호자가 보기에도 걱정되는 경우

🟢 자가관찰 (집에서 경과 관찰) - 약 45%
- 37~38도 정도의 가벼운 발열
- 참을 만한 정도의 두통·복통
- 가벼운 콧물·기침·코막힘
- 일시적인 소화 불량, 피로감, 몸살 기운
- "%string;
"머리가 아파요"%string;
", "%string;
"배가 살짝 아파요"%string;
", "%string;
"미열이 있어요"%string;
"와 같은 일상적인 증상

# 진료과 선택 가이드
- 전신 증상(발열, 몸살, 기침 등): 내과 / 가정의학과 / (소아라면 소아청소년과)
- 피부 증상: 피부과 / 알레르기내과
- 외상: 정형외과 / 응급의학과
- 머리·신경 증상: 신경과 / 신경외과
- 눈: 안과
- 귀·코·목: 이비인후과

departments 필드에는 위 가이드에 따라 최소 1개, 최대 3개까지 넣되,
첫 번째 항목은 자동 라우팅 결과(primary_department)를 우선 반영하세요.

# 응급처치(immediate_actions) 작성 가이드 - 매우 중요!
- **집에서 바로 할 수 있는 구체적인 행동**을 단계처럼 설명하세요.
- 각 항목은 **완결된 문장**으로 쓰고, **최소 20자 이상**이 되도록 자세히 적으세요.
- 가능하면 "%string;
"무엇을, 어떻게, 얼마나, 왜"%string;
"를 포함하세요.
  좋은 예시:
  - "%string;
"조용하고 어두운 곳에서 30분 이상 휴식을 취하면서, 스마트폰 사용을 잠시 중단하도록 안내합니다."%string;
"
  - "%string;
"물을 한 번에 많이 마시기보다는, 10~15분 간격으로 한 컵씩 천천히 마시게 하여 탈수를 예방합니다."%string;
"
  - "%string;
"열이 38도 이상이면서 힘들어한다면, 체중에 맞는 해열제를 복용하고 30분~1시간 뒤 다시 체온을 확인합니다."%string;
"
  - "%string;
"벌에 쏘인 부위를 깨끗한 물로 씻은 후, 깨끗한 수건으로 감싼 얼음주머니를 10~15분간 대주면 붓기와 통증이 완화됩니다."%string;
"
- 나쁜 예시:
  - "%string;
"병원에 가세요"%string;
" ← 이건 precautions에
  - "%string;
"관찰하세요"%string;
" ← 너무 추상적
  - "%string;
"휴식"%string;
" ← 구체적이지 않음
- 단순히 "%string;
"병원에 가세요"%string;
" 같은 문장은 immediate_actions에 넣지 말고,
  병원 방문 권고는 precautions 또는 friendly_message에 포함하세요.
- 응급도가 '자가관찰'이어도, 집에서 할 수 있는 구체적인 조치를 **최소 3개 이상** 작성해야 합니다.

# 주의사항(precautions) 작성 가이드
- 각 항목은 **한 문장 이상, 20자 이상**의 문장 형태여야 합니다.
- "%string;
"이런 경우에는 바로 병원에 가야 한다"%string;
"는 기준을 분명하게 써 주세요.
  좋은 예시:
  - "%string;
"통증이 점점 심해지거나, 2~3일 이상 좋아지지 않으면 가까운 병·의원 진료를 꼭 권장합니다."%string;
"
  - "%string;
"열이 39도 이상으로 다시 오르거나, 아이가 축 늘어지고 잘 반응하지 않으면 응급실 방문을 고려해야 합니다."%string;
"
  - "%string;
"쏘인 곳이 크게 부어오르면서 호흡곤란, 심한 두드러기, 어지러움 등의 알레르기 반응이 나타나면 즉시 119에 신고하거나 가장 가까운 응급실로 가세요."%string;
"

# 공감 메시지(friendly_message)
- 2~3문장으로, 사용자가 불안하지 않도록 따뜻하고 친절하게 작성하세요.
- 현재 증상이 얼마나 흔한지, 어떤 점을 중심으로 지켜보면 좋은지 간단히 설명해 주세요.

# 전체 출력 형식
- 반드시 JSON 형식으로만 출력해야 합니다.
- 아래 형식 지침을 엄격히 따르세요.

"%string
].

Definition sp_text_end : pystr := qtext [
"
"%string
].


Definition rag_open : pystr := u "
<의료_지식_검색_결과>
".

Definition rag_close : pystr := u "
</의료_지식_검색_결과>

위 의료 지식의 내용을 적극적으로 활용하여,
응급처치 방법과 주의사항을 단계별로 상세히 설명하세요.
".

(** [rag_section] as built in [analyze_symptom]. *)
Definition rag_section (medical_context : pystr) : pystr :=
  if has_context medical_context
  then rag_open ++ py_slice_to medical_context 1500 ++ rag_close
  else [].

(** The f-string [system_prompt] of [analyze_symptom]. *)
Definition system_prompt (routing : Routing) (medical_context : pystr)
  (format_instructions : pystr) : pystr :=
  sp_text_intro ++ primary_department routing
  ++ sp_text_label ++ label (urgency routing)
  ++ sp_text_reason ++ reason (urgency routing)
  ++ sp_text_before_rag ++ rag_section medical_context
  ++ sp_text_guide ++ format_instructions
  ++ sp_text_end.

Definition user_template : pystr :=
  u "증상: {message}" ++ nl ++ nl ++ u "위 증상을 분석하여 JSON으로 응답하세요.".

(** A chat prompt: each message's role and parsed template. *)
Definition ChatPrompt := list (pystr * list piece).

(** LangChain's [get_template_variables] on an f-string template: the
    template is parsed, and a variable name holding [.], [[] or []] is
    refused (langchain-core 0.3.80 and 1.0.7 on; earlier releases skip
    this check).  The names form a Python set, so which offending name the
    message shows is not fixed; here it is the first one. *)
Definition has_access_char (v : pystr) : bool :=
  existsb (fun c => (c =? 46) || (c =? lbracket) || (c =? rbracket)) v.

Definition get_template_variables (template : pystr) : res (list piece) :=
  ps <- fparse template ;;
  match find has_access_char (template_variables ps) with
  | Some v =>
      Raise (Exn ValueError (u "Invalid variable name " ++ str_repr v
               ++ u " in f-string template. Variable names cannot contain attribute access (.) or indexing ([])."))
  | None => Ok ps
  end.

(** [ChatPromptTemplate.from_messages]: every template is parsed and its
    variables checked when the prompt is built. *)
Definition from_messages (msgs : list (pystr * pystr)) : res ChatPrompt :=
  res_mapM (fun rt => ps <- get_template_variables (snd rt) ;; Ok (fst rt, ps)) msgs.

(** [models.ChatRequest] ([user_location] is not read by the code modelled
    here and is left out). *)
Record ChatRequest := {
  message : pystr;
  conversation_history : list (pystr * pystr);
  user_age : option Z
}.

(** The collaborators of [analyze_symptom]: [route_patient] and
    [get_relevant_knowledge] (modules not in the sources),
    [parser.get_format_instructions()], the rendering of a [message]
    field with a conversion or a format spec (see [fformat]), and the
    [llm | parser] part of the chain, which receives the formatted messages
    and returns the parsed JSON or raises. *)
Record Services := {
  route_patient : pystr -> Routing;
  get_relevant_knowledge : pystr -> pystr;
  format_instructions_raw : pystr;
  render_field : field -> pystr -> res pystr;
  run_chain : list (pystr * pystr) -> res pyval
}.

Definition pydict := list (pystr * pyval).

(** [ChatPromptTemplate]'s input check: every input variable of every
    message template must be among the keys given, here only [message]. *)
Definition validate_input (cp : ChatPrompt) : res unit :=
  if forallb (fun v => pystr_eqb v (u "message"))
       (flat_map (fun rp => template_variables (snd rp)) cp)
  then Ok tt
  else Raise (Exn KeyError (u "Input to ChatPromptTemplate is missing variables")).

(** [chain.ainvoke({"message": symptom_text})] *)
Definition chain_ainvoke (svc : Services) (cp : ChatPrompt) (symptom_text : pystr)
  : res pyval :=
  _ <- validate_input cp ;;
  msgs <- res_mapM (fun rp => txt <- fformat (render_field svc) (snd rp) symptom_text ;;
                              Ok (fst rp, txt)) cp ;;
  run_chain svc msgs.

(** The prompt built before the [try] block. *)
Definition build_prompt (routing : Routing) (medical_context : pystr)
  (format_instructions : pystr) : res ChatPrompt :=
  from_messages [(u "system", system_prompt routing medical_context format_instructions);
                 (u "user", user_template)].

(** The body of the [try] block. *)
Definition generative_step (svc : Services) (cp : ChatPrompt) (symptom_text : pystr)
  : res pydict :=
  result <- chain_ainvoke svc cp symptom_text ;;
  _ <- py_getitem result k_urgency_level ;;
  formatted <- format_response result ;;
  ul <- py_get result k_urgency_level (PStr tier_observation) ;;
  ds <- py_get result k_departments (PList []) ;;
  Ok [(k_response, PStr formatted);
      (k_urgency_level, ul);
      (k_departments, ds)].

(** The mapping returned by the [except] block. *)
Definition fallback_result (routing : Routing) (medical_context : pystr) : pydict :=
  [(k_response, PStr (format_fallback_response routing medical_context));
   (k_urgency_level, PStr (map_urgency_level (level (urgency routing))));
   (k_departments, PList [PStr (primary_department routing)])].

(** [analyze_symptom(request)] *)
Definition analyze_symptom (svc : Services) (request : ChatRequest) : res pydict :=
  let symptom_text := message request in
  let routing := route_patient svc symptom_text in
  let medical_context := get_relevant_knowledge svc symptom_text in
  let format_instructions := escape_braces (format_instructions_raw svc) in
  chat_prompt <- build_prompt routing medical_context format_instructions ;;
  match generative_step svc chat_prompt symptom_text with
  | Ok d => Ok d
  | Raise _ => Ok (fallback_result routing medical_context)
  end.

(* ------------------------------------------------------------------ *)
(** ** [src/llm/rag_system.py] *)

Module RAG.

(** A LangChain [Document]. *)
Record Document := {
  page_content : pystr;
  doc_metadata : pydict
}.

(** The documents of the Chroma collection [emergency_docs]; the embedding
    vectors are not represented. *)
Definition Store := list Document.

Record RAGSystem := { vectorstore : option Store }.

(** The files the code reads: the persisted store under [VECTORSTORE_DIR]
    ([None] when the directory does not exist) and the PDF files of
    [RAG_DOCS_DIR], each with its name and what [pdfplumber] extracts: a
    text (or [None]) per page, or [None] when opening it raises. *)
Record FS := {
  vectorstore_dir : option Store;
  pdf_files : list (pystr * option (list (option pystr)))
}.

(** Process state: the global [_rag_instance], whether
    [_cached_embeddings] is set, and the files. *)
Record State := {
  rag_instance : option RAGSystem;
  cached_embeddings : bool;
  fs : FS
}.

(** External capabilities: loading the embedding model, the text splitter
    ([chunk_size=800], [chunk_overlap=100]), whether Chroma can open the
    persisted collection under [VECTORSTORE_DIR], whether it can add
    documents to it (embedding them included), and Chroma's
    [similarity_search]. *)
Record Env := {
  embedding_model_loads : bool;
  split_documents : list Document -> list Document;
  chroma_opens : bool;
  chroma_adds : bool;
  similarity_search : Store -> pystr -> Z -> res (list Document)
}.

Definition py_isspace (c : Z) : bool :=
  ((9 <=? c) && (c <=? 13)) || ((28 <=? c) && (c <=? 32)) || (c =? 133)
  || (c =? 160) || (c =? 5760) || ((8192 <=? c) && (c <=? 8202))
  || (c =? 8232) || (c =? 8233) || (c =? 8239) || (c =? 8287) || (c =? 12288).

Fixpoint lstrip (s : pystr) : pystr :=
  match s with
  | c :: r => if py_isspace c then lstrip r else s
  | [] => []
  end.

(** [s.strip()] *)
Definition py_strip (s : pystr) : pystr := rev (lstrip (rev (lstrip s))).

Definition set_instance (i : RAGSystem) (st : State) : State :=
  {| rag_instance := Some i; cached_embeddings := cached_embeddings st; fs := fs st |}.

Definition set_fs (f : FS) (st : State) : State :=
  {| rag_instance := rag_instance st; cached_embeddings := cached_embeddings st; fs := f |}.

(** [get_embeddings()] *)
Definition get_embeddings (env : Env) (st : State) : res State :=
  if cached_embeddings st then Ok st
  else if embedding_model_loads env then
    Ok {| rag_instance := rag_instance st; cached_embeddings := true; fs := fs st |}
  else Raise (Exn OracleError (u "embedding model could not be loaded")).

(** [RAGSystem()] *)
Definition new_rag_system (env : Env) (st : State) : res (RAGSystem * State) :=
  st' <- get_embeddings env st ;;
  Ok ({| vectorstore := None |}, st').

Fixpoint page_documents (filename : pystr) (page_num : Z)
  (pages : list (option pystr)) : list Document :=
  match pages with
  | [] => []
  | p :: r =>
      let rest := page_documents filename (page_num + 1) r in
      match p with
      | Some text =>
          if Nat.eqb (length (py_strip text)) 0 then rest
          else {| page_content := py_strip text;
                  doc_metadata :=
                    [(u "source", PStr (filename ++ u " - 페이지 " ++ z_decimal page_num));
                     (u "file", PStr filename);
                     (u "page", PInt page_num)] |} :: rest
      | None => rest
      end
  end.

(** [extract_text_from_pdf] *)
Definition extract_text_from_pdf (f : pystr * option (list (option pystr)))
  : list Document :=
  match snd f with
  | Some pages => page_documents (fst f) 1 pages
  | None => []
  end.

(** [load_documents] *)
Definition load_documents (files : FS) : list Document :=
  flat_map extract_text_from_pdf (pdf_files files).

(** [load_vectorstore]: opens the persisted collection when the directory
    exists; when [Chroma(...)] raises, the [except] block returns [False]
    and the instance keeps its store. *)
Definition load_vectorstore (env : Env) (inst : RAGSystem) (files : FS)
  : bool * RAGSystem :=
  match vectorstore_dir files with
  | None => (false, inst)
  | Some stored =>
      if chroma_opens env then (true, {| vectorstore := Some stored |})
      else (false, inst)
  end.

(** [create_vectorstore]: [VECTORSTORE_DIR.mkdir(exist_ok=True)] creates
    the directory (an empty collection when it was missing), then
    [Chroma.from_documents] opens the collection and adds the chunks to
    it, or raises with the collection unchanged. *)
Definition create_vectorstore (env : Env) (inst : RAGSystem)
  (documents : list Document) (files : FS) : res RAGSystem * FS :=
  match documents with
  | [] => (Ok inst, files)
  | _ =>
      let split_docs := split_documents env documents in
      let old := match vectorstore_dir files with Some o => o | None => [] end in
      if chroma_opens env && chroma_adds env then
        let coll := old ++ split_docs in
        (Ok {| vectorstore := Some coll |},
         {| vectorstore_dir := Some coll; pdf_files := pdf_files files |})
      else
        (Raise (Exn StoreError (u "Chroma.from_documents failed")),
         {| vectorstore_dir := Some old; pdf_files := pdf_files files |})
  end.

(** [initialize_rag_system(force_recreate)] with the state it leaves,
    whether it returns or raises. *)
Definition initialize_rag_system_st (env : Env) (force_recreate : bool) (st : State)
  : res RAGSystem * State :=
  match match rag_instance st with
        | None => new_rag_system env st
        | Some i => Ok (i, st)
        end with
  | Raise e => (Raise e, st)
  | Ok p =>
      let inst := fst p in
      let st1 := set_instance inst (snd p) in
      let lv := if force_recreate then (false, inst)
                else load_vectorstore env inst (fs st1) in
      if fst lv then (Ok (snd lv), set_instance (snd lv) st1)
      else
        let documents := load_documents (fs st1) in
        let created := create_vectorstore env (snd lv) documents (fs st1) in
        match fst created with
        | Ok i => (Ok i, set_instance i (set_fs (snd created) st1))
        | Raise e => (Raise e, set_fs (snd created) st1)
        end
  end.

(** The value of [initialize_rag_system(force_recreate)] with the state
    after it, when it returns. *)
Definition initialize_rag_system (env : Env) (force_recreate : bool) (st : State)
  : res (RAGSystem * State) :=
  match initialize_rag_system_st env force_recreate st with
  | (Ok i, st') => Ok (i, st')
  | (Raise e, _) => Raise e
  end.

Definition result_dict (doc : Document) : pydict :=
  [(u "content", PStr (page_content doc));
   (u "source", dict_get (doc_metadata doc) (u "source") (PStr []));
   (u "file", dict_get (doc_metadata doc) (u "file") (PStr []));
   (u "page", dict_get (doc_metadata doc) (u "page") (PStr []))].

(** [RAGSystem.search(query, k)] *)
Definition search (env : Env) (inst : RAGSystem) (query : pystr) (k : Z)
  : list pydict :=
  match vectorstore inst with
  | None => []
  | Some store =>
      match similarity_search env store query k with
      | Ok results => map result_dict results
      | Raise _ => []
      end
  end.

(** Number of entries of the index held by an instance. *)
Definition index_size (inst : RAGSystem) : nat :=
  match vectorstore inst with
  | None => 0%nat
  | Some s => length s
  end.

(** [get_rag_system()]: the global instance, created by
    [initialize_rag_system()] on first use, with the state after the
    call. *)
Definition get_rag_system (env : Env) (st : State) : res (option RAGSystem) * State :=
  match rag_instance st with
  | None =>
      let p := initialize_rag_system_st env false st in
      match fst p with
      | Ok _ => (Ok (rag_instance (snd p)), snd p)
      | Raise e => (Raise e, snd p)
      end
  | Some _ => (Ok (rag_instance st), st)
  end.

(** [search_documents(query, k)] *)
Definition search_documents (env : Env) (st : State) (query : pystr) (k : Z)
  : res (list pydict) * State :=
  let p := get_rag_system env st in
  match fst p with
  | Ok (Some rag) => (Ok (search env rag query k), snd p)
  | Ok None => (Ok [], snd p)
  | Raise e => (Raise e, snd p)
  end.

End RAG.

(* ------------------------------------------------------------------ *)
(** ** [src/models.py] responses and the [/api/chat] endpoint of [src/main.py] *)

Module API.

Record ErrorDetails := {
  code : option pystr;
  field : option pystr;
  rejected_value : option pyval;
  err_reason : option pystr
}.

(** [ApiResponse] ([timestamp] left out). *)
Record ApiResponse := {
  success : bool;
  api_message : option pystr;
  data : option pyval;
  error : option ErrorDetails
}.

Definition create_success_response (data : option pyval) (message : option pystr)
  : ApiResponse :=
  {| success := true; api_message := message; data := data; error := None |}.

Definition opt_str_truthy (o : option pystr) : bool :=
  match o with Some s => truthy (PStr s) | None => false end.

Definition create_error_response (message : pystr) (code : option pystr)
  (field : option pystr) (rejected_value : option pyval) (reason : option pystr)
  : ApiResponse :=
  let any_set := opt_str_truthy code || opt_str_truthy field
                 || match rejected_value with Some v => truthy v | None => false end
                 || opt_str_truthy reason in
  let error_details :=
    if any_set then
      Some {| code := code; field := field; rejected_value := rejected_value;
              err_reason := Some (match reason with
                                  | Some r => if opt_str_truthy (Some r) then r else message
                                  | None => message
                                  end) |}
    else None in
  {| success := false; api_message := Some message; data := None; error := error_details |}.

(** The collaborators called by [chat]: [classify_symptom] and
    [generate_response] (imported from [ai_service], which does not define
    them), and [get_rag_system()] followed by [rag.search(message, k=3)]. *)
Record ChatServices := {
  classify_symptom : ChatRequest -> res pyval;
  rag_search : pystr -> res (list pyval);
  generate_response : ChatRequest -> pyval -> list pyval -> option pyval -> res pyval
}.

(** The body of the [try] block of [chat]. *)
Definition chat_pipeline (svc : ChatServices) (request : ChatRequest) : res pyval :=
  intent <- classify_symptom svc request ;;
  rag_results <- rag_search svc (message request) ;;
  generate_response svc request intent rag_results None.

(** [chat(request)] *)
Definition chat (svc : ChatServices) (request : ChatRequest) : ApiResponse :=
  match chat_pipeline svc request with
  | Ok response =>
      create_success_response (Some (PList [response])) (Some (u "응답 생성 성공"))
  | Raise e =>
      create_error_response (u "AI 응답 생성 실패") (Some (u "CHAT_ERROR")) None None
        (Some (exn_str e))
  end.

End API.

(* ------------------------------------------------------------------ *)
(** ** The RAG management endpoints of [src/main.py] *)

Module Main.

(** [bool(rag)] for a [RAGSystem] object: the class defines neither
    [__bool__] nor [__len__]. *)
Definition rag_truthy (_ : RAG.RAGSystem) : bool := true.

Definition status_active_message : pystr := u "RAG 시스템이 정상 작동 중입니다".

Definition no_documents_response : API.ApiResponse :=
  API.create_success_response
    (Some (PDict [(u "status", PStr (u "no_documents")); (u "ready", PBool false)]))
    (Some (u "RAG 문서가 없습니다")).

(** [rag_status()]; [collection_count] is [vectorstore._collection.count()],
    which may raise (caught by the bare [except:]). *)
Definition rag_status (env : RAG.Env) (collection_count : RAG.Store -> res Z)
  (st : RAG.State) : API.ApiResponse * RAG.State :=
  let p := RAG.get_rag_system env st in
  match fst p with
  | Ok rag =>
      (match rag with
       | Some r =>
           match RAG.vectorstore r with
           | Some store =>
               match collection_count store with
               | Ok count =>
                   API.create_success_response
                     (Some (PDict [(u "status", PStr (u "active"));
                                   (u "document_count", PInt count);
                                   (u "ready", PBool true)]))
                     (Some status_active_message)
               | Raise _ =>
                   API.create_success_response
                     (Some (PDict [(u "status", PStr (u "active"));
                                   (u "ready", PBool true)]))
                     (Some status_active_message)
               end
           | None => no_documents_response
           end
       | None => no_documents_response
       end, snd p)
  | Raise e =>
      (API.create_error_response (u "RAG 시스템 상태 확인 실패")
         (Some (u "RAG_STATUS_ERROR")) None None (Some (exn_str e)), snd p)
  end.

(** [rag_reload()] *)
Definition rag_reload (env : RAG.Env) (st : RAG.State) : API.ApiResponse * RAG.State :=
  let p := RAG.initialize_rag_system_st env false st in
  match fst p with
  | Ok rag =>
      (if rag_truthy rag
       then API.create_success_response None (Some (u "RAG 시스템 재로드 완료"))
       else API.create_success_response
              (Some (PDict [(u "status", PStr (u "no_documents"))]))
              (Some (u "로드할 문서가 없습니다")), snd p)
  | Raise e =>
      (API.create_error_response (u "RAG 시스템 재로드 실패")
         (Some (u "RAG_RELOAD_ERROR")) None None (Some (exn_str e)), snd p)
  end.

End Main.

(* ------------------------------------------------------------------ *)
(** ** Views used in the statements *)

Definition is_ok {A} (r : res A) : bool :=
  match r with Ok _ => true | Raise _ => false end.

Definition tiers : list pystr := [tier_emergency; tier_urgent; tier_observation].

(** The prompt [analyze_symptom] builds for a symptom text. *)
Definition prompt_of (svc : Services) (symptom_text : pystr) : res ChatPrompt :=
  build_prompt (route_patient svc symptom_text)
    (get_relevant_knowledge svc symptom_text)
    (escape_braces (format_instructions_raw svc)).

(** What the [try] block of [analyze_symptom] yields. *)
Definition generative_outcome (svc : Services) (request : ChatRequest) : res pydict :=
  cp <- prompt_of svc (message request) ;;
  generative_step svc cp (message request).

(** The canonical analysis result of the spec, and the JSON object the
    output parser yields for it. *)
Record AnalysisResult := {
  a_urgency_level : pystr;
  a_urgency_reason : pystr;
  a_departments : list pystr;
  a_immediate_actions : list pystr;
  a_precautions : list pystr;
  a_friendly_message : pystr
}.

Definition analysis_dict (a : AnalysisResult) : pydict :=
  [(k_urgency_level, PStr (a_urgency_level a));
   (k_urgency_reason, PStr (a_urgency_reason a));
   (k_departments, PList (map PStr (a_departments a)));
   (k_immediate_actions, PList (map PStr (a_immediate_actions a)));
   (k_precautions, PList (map PStr (a_precautions a)));
   (k_friendly_message, PStr (a_friendly_message a))].

(** The renderer as the spec describes it: friendly message; urgency line
    (tier and reason); recommended departments (joined); immediate actions
    (bulleted); precautions (bulleted); disclaimer.  A list section is
    shown when its list is non-empty. *)
Definition tier_emoji (t : pystr) : pystr :=
  if pystr_eqb t tier_emergency then u "🔴"
  else if pystr_eqb t tier_urgent then u "🟡"
  else if pystr_eqb t tier_observation then u "🟢"
  else u "💡".

Definition section_if (l : list pystr) (lines : list pystr) : list pystr :=
  match l with [] => [] | _ => lines end.

Definition render_spec (a : AnalysisResult) : pystr :=
  join nl
    ([a_friendly_message a; [];
      tier_emoji (a_urgency_level a) ++ u " 응급도: " ++ a_urgency_level a;
      u "└─ " ++ a_urgency_reason a; []]
     ++ section_if (a_departments a)
          [u "📋 추천 진료과"; u "└─ " ++ join (u ", ") (a_departments a); []]
     ++ section_if (a_immediate_actions a)
          ([u "✅ 즉시 취해야 할 조치"] ++ map bullet (a_immediate_actions a) ++ [[]])
     ++ section_if (a_precautions a)
          ([u "⚠️ 주의사항"] ++ map bullet (a_precautions a) ++ [[]])
     ++ [disclaimer]).

(** The text of a parsed template as a stream of literal characters and
    replacement fields. *)
Definition res_map {A B} (f : A -> B) (r : res A) : res B :=
  match r with Ok a => Ok (f a) | Raise e => Raise e end.

Definition events (ps : list piece) : list (Z + field) :=
  flat_map (fun p : piece =>
              map inl (fst p) ++ match snd p with Some f => [inr f] | None => [] end) ps.

(** A text with no brace character. *)
Definition brace_free (s : pystr) : bool :=
  forallb (fun c => negb (c =? lbrace) && negb (c =? rbrace)) s.

(** The user template as [string.Formatter().parse] reads it. *)
Definition user_template_parsed : list piece :=
  [(u "증상: ", Some {| fname := u "message"; fconv := None; fspec := [] |});
   (nl ++ nl ++ u "위 증상을 분석하여 JSON으로 응답하세요.", None)].

(** The user message as [chain.ainvoke] formats it. *)
Definition user_message (symptom_text : pystr) : pystr :=
  u "증상: " ++ symptom_text ++ nl ++ nl ++ u "위 증상을 분석하여 JSON으로 응답하세요.".

(** The JSON object of an analysis whose [departments] is a string rather
    than a list. *)
Definition analysis_dict_str_departments (a : AnalysisResult) (s : pystr) : pydict :=
  [(k_urgency_level, PStr (a_urgency_level a));
   (k_urgency_reason, PStr (a_urgency_reason a));
   (k_departments, PStr s);
   (k_immediate_actions, PList (map PStr (a_immediate_actions a)));
   (k_precautions, PList (map PStr (a_precautions a)));
   (k_friendly_message, PStr (a_friendly_message a))].

(** The text [format_response] gives for a dict holding none of the six
    keys. *)
Definition default_response : pystr :=
  join nl [u "증상 분석을 완료했습니다."; [];
           u "🟢 응급도: " ++ tier_observation; u "└─ "; []; disclaimer].

(** A document [extract_text_from_pdf] makes for page [page_num] of
    [filename]. *)
Definition page_document (filename : pystr) (page_num : Z) (text : pystr) : RAG.Document :=
  {| RAG.page_content := RAG.py_strip text;
     RAG.doc_metadata :=
       [(u "source", PStr (filename ++ u " - 페이지 " ++ z_decimal page_num));
        (u "file", PStr filename);
        (u "page", PInt page_num)] |}.

(* ------------------------------------------------------------------ *)
(** ** Concrete inputs *)

Definition sample_routing : Routing :=
  {| primary_department := u "내과";
     urgency := {| level := u "observation"; label := u "자가관찰";
                   reason := u "가벼운 발열 증상입니다";
                   action := u "충분한 수분을 섭취하고 휴식을 취하세요" |} |}.

Definition sample_request : ChatRequest :=
  {| message := u "미열이 있어요"; conversation_history := []; user_age := None |}.

Definition sample_format_instructions : pystr :=
  u "The output should be formatted as a JSON instance: {" ++ dq ++ u "properties" ++ dq ++ u ": {}}".

(** A knowledge text longer than 100 characters. *)
Definition long_context : pystr :=
  concat (repeat (u "발열 시에는 미지근한 물로 몸을 닦아 주고 수분을 보충합니다. ") 4).

(** The same text followed by a stray closing brace. *)
Definition brace_context : pystr := long_context ++ u "(참고: 체온표 38.5})".

(** Services whose generative oracle raises. *)
Definition services_failing (ctx : pystr) : Services :=
  {| route_patient := fun _ => sample_routing;
     get_relevant_knowledge := fun _ => ctx;
     format_instructions_raw := sample_format_instructions;
     render_field := fun _ m => Ok m;
     run_chain := fun _ => Raise (Exn OracleError (u "timeout")) |}.

(** Services whose generative oracle returns the given JSON value. *)
Definition services_returning (v : pyval) : Services :=
  {| route_patient := fun _ => sample_routing;
     get_relevant_knowledge := fun _ => [];
     format_instructions_raw := sample_format_instructions;
     render_field := fun _ m => Ok m;
     run_chain := fun _ => Ok v |}.


Definition oracle_null_departments : pyval :=
  PDict [(k_urgency_level, PStr tier_observation);
         (k_departments, PNone)].

Definition sample_doc : RAG.Document :=
  {| RAG.page_content := u "고열 응급처치";
     RAG.doc_metadata := [(u "source", PStr (u "guide.pdf - 페이지 1"))] |}.

Definition rag_env : RAG.Env :=
  {| RAG.embedding_model_loads := true;
     RAG.split_documents := fun ds => ds;
     RAG.chroma_opens := true;
     RAG.chroma_adds := true;
     RAG.similarity_search := fun store _ k => Ok (firstn (Z.to_nat k) store) |}.

(** No PDF files, but a persisted store left by an earlier build. *)
Definition state_stale_store : RAG.State :=
  {| RAG.rag_instance := None; RAG.cached_embeddings := false;
     RAG.fs := {| RAG.vectorstore_dir := Some [sample_doc]; RAG.pdf_files := [] |} |}.

(** No PDF files and no persisted store. *)
Definition state_empty : RAG.State :=
  {| RAG.rag_instance := None; RAG.cached_embeddings := false;
     RAG.fs := {| RAG.vectorstore_dir := None;
                  RAG.pdf_files := [(u "scan.pdf", Some [None; Some (u "  ")])] |} |}.

Definition chat_services_echo : API.ChatServices :=
  {| API.classify_symptom := fun r => Ok (PStr (message r));
     API.rag_search := fun _ => Ok [];
     API.generate_response := fun r _ _ _ => Ok (PDict [(k_response, PStr (message r))]) |}.

Definition chat_services_boom : API.ChatServices :=
  {| API.classify_symptom := fun _ => Ok PNone;
     API.rag_search := fun _ => Ok [];
     API.generate_response := fun _ _ _ _ => Raise (Exn OracleError (u "quota exceeded")) |}.

Definition empty_request : ChatRequest :=
  {| message := []; conversation_history := []; user_age := None |}.


(** One PDF page of text and a persisted store from an earlier build. *)
Definition state_pdf_and_store : RAG.State :=
  {| RAG.rag_instance := None; RAG.cached_embeddings := false;
     RAG.fs := {| RAG.vectorstore_dir := Some [sample_doc];
                  RAG.pdf_files := [(u "guide.pdf", Some [Some (u " 고열 시 해열제를 복용합니다 ")])] |} |}.

(* ------------------------------------------------------------------ *)
(** ** Basic lemmas *)

Lemma pystr_eqb_eq (a b : pystr) : pystr_eqb a b = true <-> a = b.
Proof.
  unfold pystr_eqb; destruct (list_eq_dec Z.eq_dec a b); split; congruence.
Qed.

Lemma pystr_eqb_refl (a : pystr) : pystr_eqb a a = true.
Proof. apply pystr_eqb_eq; reflexivity. Qed.

Lemma res_mapM_strs {B} (f : pyval -> res B) (g : pystr -> B) (l : list pystr) :
  (forall s, f (PStr s) = Ok (g s)) -> res_mapM f (map PStr l) = Ok (map g l).
Proof.
  intro Hf; induction l as [|x l IH]; simpl; [reflexivity|].
  rewrite Hf, IH; reflexivity.
Qed.

Lemma str_join_strs (sep : pystr) (l : list pystr) :
  str_join sep (map PStr l) = Ok (join sep l).
Proof.
  unfold str_join.
  rewrite (res_mapM_strs _ (fun s => s)) by (intro; reflexivity).
  rewrite map_id; reflexivity.
Qed.

Lemma truthy_list_strs (l : list pystr) :
  truthy (PList (map PStr l)) = match l with [] => false | _ => true end.
Proof. destruct l; reflexivity. Qed.

Lemma list_section_strs (h : pystr) (l : list pystr) :
  list_section h (fun x => bullet (py_str x)) (PList (map PStr l))
  = Ok (map PStr (section_if l ([h] ++ map bullet l ++ [[]]))).
Proof.
  unfold list_section; rewrite truthy_list_strs.
  destruct l as [|x l]; [reflexivity|].
  cbn [py_iter res_bind section_if].
  rewrite !map_app, !map_map; reflexivity.
Qed.

Lemma py_get_dict (d : pydict) (k : pystr) (x : pyval) :
  py_get (PDict d) k x = Ok (dict_get d k x).
Proof. reflexivity. Qed.

Lemma join_snoc (sep : pystr) (l : list pystr) (x : pystr) :
  exists pre, join sep (l ++ [x]) = pre ++ x.
Proof.
  induction l as [|y l IH]; [exists []; reflexivity|].
  destruct IH as [pre Hpre].
  destruct l as [|z l].
  - exists (y ++ sep); simpl; rewrite <- app_assoc; reflexivity.
  - exists (y ++ sep ++ pre).
    transitivity (y ++ sep ++ join sep ((z :: l) ++ [x])); [reflexivity|].
    rewrite Hpre, !app_assoc; reflexivity.
Qed.

Lemma res_mapM_snoc {A B} (f : A -> res B) (l : list A) (x : A) (ys : list B) :
  res_mapM f (l ++ [x]) = Ok ys ->
  exists ys' y, f x = Ok y /\ ys = ys' ++ [y].
Proof.
  revert ys; induction l as [|a l IH]; intros ys H; simpl in H.
  - destruct (f x) as [y|e]; simpl in H; [|discriminate].
    inversion H; subst; exists [], y; split; reflexivity.
  - destruct (f a) as [y0|e]; simpl in H; [|discriminate].
    destruct (res_mapM f (l ++ [x])) as [ys0|e] eqn:E; simpl in H; [|discriminate].
    inversion H; subst.
    destruct (IH ys0 eq_refl) as [ys' [y [Hy Hys]]].
    exists (y0 :: ys'), y; split; [exact Hy|]; rewrite Hys; reflexivity.
Qed.

Lemma str_join_ends (sep : pystr) (l : list pyval) (x : pystr) (s : pystr) :
  str_join sep (l ++ [PStr x]) = Ok s -> exists pre, s = pre ++ x.
Proof.
  unfold str_join; intro H.
  destruct (res_mapM _ (l ++ [PStr x])) as [ss|e] eqn:E; simpl in H; [|discriminate].
  inversion H; subst.
  destruct (res_mapM_snoc _ _ _ _ E) as [ys' [y [Hy Hss]]].
  inversion Hy; subst.
  apply join_snoc.
Qed.

(* ------------------------------------------------------------------ *)
(** ** Claims *)

Lemma map_urgency_level_cases (s : pystr) :
  In (map_urgency_level s) tiers /\
  (In s [u "emergency"; u "urgent"; u "observation"]
   \/ map_urgency_level s = tier_observation).
Proof.
  unfold map_urgency_level, tiers; cbn [assoc].
  destruct (pystr_eqb s (u "emergency")) eqn:E1.
  { apply pystr_eqb_eq in E1; subst; simpl; auto. }
  destruct (pystr_eqb s (u "urgent")) eqn:E2.
  { apply pystr_eqb_eq in E2; subst; simpl; auto. }
  destruct (pystr_eqb s (u "observation")) eqn:E3.
  { apply pystr_eqb_eq in E3; subst; simpl; auto. }
  simpl; auto.
Qed.

(** C9: [map_urgency_level] is total: every input is mapped to one of the
    three tier labels 응급실, 외래진료, 자가관찰, and any input other than
    the keys emergency, urgent, observation is mapped to 자가관찰. *)
Theorem map_urgency_level_total (s : pystr) :
  In (map_urgency_level s) tiers /\
  (In s [u "emergency"; u "urgent"; u "observation"]
   \/ map_urgency_level s = tier_observation).
Proof. exact (map_urgency_level_cases s). Qed.

(** C6: for every routing hint (and any retrieved context), the fallback
    mapping has [urgency_level] equal to the tier label of the hint's
    urgency level (응급실, 외래진료, 자가관찰 for emergency, urgent,
    observation), [departments] equal to the one-element list of the hint's
    [primary_department], and a response whose urgency line shows the
    hint's label and whose next line shows the hint's reason. *)
Theorem fallback_result_follows_hint (routing : Routing) (medical_context : pystr) :
  let d := fallback_result routing medical_context in
  assoc k_urgency_level d = Some (PStr (map_urgency_level (level (urgency routing)))) /\
  map_urgency_level (u "emergency") = tier_emergency /\
  map_urgency_level (u "urgent") = tier_urgent /\
  map_urgency_level (u "observation") = tier_observation /\
  assoc k_departments d = Some (PList [PStr (primary_department routing)]) /\
  exists emoji rest,
    assoc k_response d =
      Some (PStr (join nl ([u "증상 분석을 완료했습니다."; [];
                            emoji ++ u " 응급도: " ++ label (urgency routing);
                            u "└─ " ++ reason (urgency routing)] ++ rest))).
Proof.
  intro d.
  split; [reflexivity|].
  split; [reflexivity|].
  split; [reflexivity|].
  split; [reflexivity|].
  split; [reflexivity|].
  eexists; eexists; reflexivity.
Qed.

Lemma analysis_get_level (a : AnalysisResult) (x : pyval) :
  dict_get (analysis_dict a) k_urgency_level x = PStr (a_urgency_level a).
Proof. reflexivity. Qed.

Lemma analysis_get_reason (a : AnalysisResult) (x : pyval) :
  dict_get (analysis_dict a) k_urgency_reason x = PStr (a_urgency_reason a).
Proof. reflexivity. Qed.

Lemma analysis_get_departments (a : AnalysisResult) (x : pyval) :
  dict_get (analysis_dict a) k_departments x = PList (map PStr (a_departments a)).
Proof. reflexivity. Qed.

Lemma analysis_get_actions (a : AnalysisResult) (x : pyval) :
  dict_get (analysis_dict a) k_immediate_actions x
  = PList (map PStr (a_immediate_actions a)).
Proof. reflexivity. Qed.

Lemma analysis_get_precautions (a : AnalysisResult) (x : pyval) :
  dict_get (analysis_dict a) k_precautions x = PList (map PStr (a_precautions a)).
Proof. reflexivity. Qed.

Lemma analysis_get_friendly (a : AnalysisResult) (x : pyval) :
  dict_get (analysis_dict a) k_friendly_message x = PStr (a_friendly_message a).
Proof. reflexivity. Qed.

Lemma urgency_emoji_get (t : pystr) :
  str_table_get [(tier_emergency, u "🔴"); (tier_urgent, u "🟡");
                 (tier_observation, u "🟢")] (PStr t) (u "💡") = Ok (tier_emoji t).
Proof.
  unfold str_table_get, tier_emoji; cbn [assoc].
  destruct (pystr_eqb t tier_emergency); [reflexivity|].
  destruct (pystr_eqb t tier_urgent); [reflexivity|].
  destruct (pystr_eqb t tier_observation); reflexivity.
Qed.

Lemma departments_section (ds : list pystr) :
  (if truthy (PList (map PStr ds)) then
     ds' <- py_iter (PList (map PStr ds)) ;;
     j <- str_join (u ", ") ds' ;;
     Ok [PStr (u "📋 추천 진료과"); PStr (u "└─ " ++ j); PStr []]
   else Ok [])
  = Ok (map PStr (section_if ds [u "📋 추천 진료과"; u "└─ " ++ join (u ", ") ds; []])).
Proof.
  rewrite truthy_list_strs; destruct ds as [|d ds]; [reflexivity|].
  cbn [py_iter res_bind]; rewrite str_join_strs; reflexivity.
Qed.

(** C8: the renderer [format_response] is a function of the analysis result
    alone, and for an analysis result it produces the friendly message,
    the urgency line (tier emoji and tier) followed by the reason line, the
    recommended departments joined with commas, the bulleted immediate
    actions, the bulleted precautions, and the fixed disclaimer, in this
    order (a list section is left out when its list is empty). *)
Theorem format_response_section_order (a : AnalysisResult) :
  format_response (PDict (analysis_dict a)) = Ok (render_spec a).
Proof.
  unfold format_response; cbv zeta.
  rewrite !py_get_dict, !analysis_get_level, !analysis_get_friendly,
    !analysis_get_reason, !analysis_get_departments, !analysis_get_actions,
    !analysis_get_precautions.
  cbn [res_bind].
  rewrite urgency_emoji_get; cbn [res_bind].
  rewrite departments_section; cbn [res_bind].
  rewrite list_section_strs; cbn [res_bind].
  rewrite list_section_strs; cbn [res_bind py_str].
  change [PStr disclaimer] with (map PStr [disclaimer]).
  rewrite <- !map_app.
  change ([PStr (a_friendly_message a); PStr [];
           PStr (tier_emoji (a_urgency_level a) ++ u " 응급도: " ++ a_urgency_level a);
           PStr (u "└─ " ++ a_urgency_reason a); PStr []])
    with (map PStr [a_friendly_message a; [];
                    tier_emoji (a_urgency_level a) ++ u " 응급도: " ++ a_urgency_level a;
                    u "└─ " ++ a_urgency_reason a; []]).
  rewrite <- map_app, str_join_strs.
  reflexivity.
Qed.

(** C7: the retrieved knowledge enters the system prompt only through
    [rag_section], which is empty or wraps [medical_context[:1500]]; so the
    knowledge text contributed to the assembled prompt is a prefix of the
    retrieved text of at most 1500 characters. *)
Theorem system_prompt_context_budget (routing : Routing)
  (medical_context format_instructions : pystr) :
  system_prompt routing medical_context format_instructions =
    (sp_text_intro ++ primary_department routing ++ sp_text_label
     ++ label (urgency routing) ++ sp_text_reason ++ reason (urgency routing)
     ++ sp_text_before_rag)
    ++ rag_section medical_context
    ++ (sp_text_guide ++ format_instructions ++ sp_text_end) /\
  (rag_section medical_context = [] \/
   exists chunk, rag_section medical_context = rag_open ++ chunk ++ rag_close /\
                 chunk = firstn 1500 medical_context /\
                 (length chunk <= 1500)%nat).
Proof.
  split.
  - unfold system_prompt; rewrite <- !app_assoc; reflexivity.
  - unfold rag_section; destruct (has_context medical_context).
    + right; exists (firstn 1500 medical_context).
      split; [reflexivity|]; split; [reflexivity|].
      apply firstn_le_length.
    + left; reflexivity.
Qed.

(** *** Brace escaping *)

Lemma res_map_res_map {A B C} (f : B -> C) (g : A -> B) (r : res A) :
  res_map f (res_map g r) = res_map (fun x => f (g x)) r.
Proof. destruct r; reflexivity. Qed.

Lemma res_map_events_cons (p : piece) (r : res (list piece)) :
  res_map events (res_cons p r) = res_map (fun ev => events [p] ++ ev) (res_map events r).
Proof. destruct r; simpl; [rewrite app_nil_r|]; reflexivity. Qed.

Lemma res_map_ext {A B} (f g : A -> B) (r : res A) :
  (forall x, f x = g x) -> res_map f r = res_map g r.
Proof. intro H; destruct r; simpl; [rewrite H|]; reflexivity. Qed.

Lemma lit_emit (l : pystr) (F : option field) (r : res (list piece)) :
  res_map events (res_cons (l, F) r)
  = res_map (fun ev => map inl l ++ ev) (res_map events (res_cons ([], F) r)).
Proof.
  rewrite !res_map_events_cons, !res_map_res_map.
  apply res_map_ext; intro ev; simpl; rewrite !app_nil_r, <- app_assoc; reflexivity.
Qed.

(** Literal text accumulated before a brace is emitted unchanged, in every
    state of the parser. *)
Lemma fparse_go_lit (x : pystr) : forall m,
  res_map events (fparse_go m x)
  = res_map (fun ev => map inl (mode_lit m) ++ ev)
      (res_map events (fparse_go (mode_drop_lit m) x)).
Proof.
  induction x as [|c r IH]; intro m.
  - destruct m as [acc| | | | |]; try reflexivity.
    destruct acc; simpl; [reflexivity|]; rewrite !app_nil_r; reflexivity.
  - destruct m as [acc|lit n|lit n|lit n|lit n cv|lit n cv sp d];
      cbn [fparse_go mode_lit mode_drop_lit].
    + destruct (c =? rbrace).
      * destruct r as [|c' r']; [reflexivity|].
        destruct (c' =? rbrace); [|reflexivity].
        rewrite !res_map_events_cons, !res_map_res_map.
        apply res_map_ext; intro ev; simpl; rewrite !app_nil_r, map_app, <- app_assoc; reflexivity.
      * destruct (c =? lbrace).
        -- destruct r as [|c' r']; [reflexivity|].
           destruct (c' =? lbrace).
           ++ rewrite !res_map_events_cons, !res_map_res_map.
              apply res_map_ext; intro ev; simpl; rewrite !app_nil_r, map_app, <- app_assoc;
                reflexivity.
           ++ rewrite (IH (MName acc [])); reflexivity.
        -- rewrite (IH (MLit (acc ++ [c]))), (IH (MLit ([] ++ [c]))), !res_map_res_map.
           apply res_map_ext; intro ev; simpl; rewrite map_app, <- app_assoc; reflexivity.
    + destruct (c =? lbrace); [reflexivity|].
      destruct (c =? lbracket); [rewrite IH; reflexivity|].
      destruct (c =? rbrace); [apply lit_emit|].
      destruct (c =? colon); [rewrite IH; reflexivity|].
      destruct (c =? bang); rewrite IH; reflexivity.
    + destruct (c =? rbracket); rewrite IH; reflexivity.
    + rewrite IH; reflexivity.
    + destruct (c =? rbrace); [apply lit_emit|].
      destruct (c =? colon); [rewrite IH; reflexivity|reflexivity].
    + destruct (c =? lbrace); [rewrite IH; reflexivity|].
      destruct (c =? rbrace); [|rewrite IH; reflexivity].
      destruct (Nat.eqb d 1); [apply lit_emit|rewrite IH; reflexivity].
Qed.

Lemma escape_braces_cons (c : Z) (s : pystr) :
  escape_braces (c :: s)
  = (if c =? lbrace then [lbrace; lbrace]
     else if c =? rbrace then [rbrace; rbrace] else [c]) ++ escape_braces s.
Proof.
  unfold escape_braces, py_replace_char; cbn [flat_map].
  destruct (Z.eqb_spec c lbrace) as [->|H1]; [reflexivity|].
  destruct (Z.eqb_spec c rbrace) as [->|H2]; [reflexivity|].
  cbn [app flat_map]; rewrite (proj2 (Z.eqb_neq c rbrace) H2); reflexivity.
Qed.

(** A text passed through [escape_braces] is read back by the template
    parser as literal text, with no replacement field. *)
Lemma escaped_text_parses_as_literal (s t : pystr) :
  res_map events (fparse (escape_braces s ++ t))
  = res_map (fun ev => map inl s ++ ev) (res_map events (fparse t)).
Proof.
  unfold fparse; induction s as [|c s IH].
  - change (escape_braces [] ++ t) with t.
    destruct (fparse_go (MLit []) t); reflexivity.
  - rewrite escape_braces_cons.
    destruct (Z.eqb_spec c lbrace) as [->|H1].
    + cbn [app fparse_go Z.eqb lbrace rbrace Pos.eqb].
      rewrite res_map_events_cons, IH, !res_map_res_map; reflexivity.
    + destruct (Z.eqb_spec c rbrace) as [->|H2].
      * cbn [app fparse_go Z.eqb lbrace rbrace Pos.eqb].
        rewrite res_map_events_cons, IH, !res_map_res_map; reflexivity.
      * cbn [app fparse_go].
        rewrite (proj2 (Z.eqb_neq c rbrace) H2), (proj2 (Z.eqb_neq c lbrace) H1).
        rewrite (fparse_go_lit _ (MLit [c])); cbn [mode_lit mode_drop_lit].
        rewrite IH, !res_map_res_map; reflexivity.
Qed.

(** C4 (the code does not do what the claim says): the schema description
    is escaped, and an escaped text is read back by the template parser as
    literal text; the retrieved knowledge is inserted without escaping, so
    a retrieved text of more than 100 characters holding a stray closing
    brace makes the prompt construction raise [ValueError], before the
    [try] block, and [analyze_symptom] raises. *)
Theorem retrieved_context_not_escaped :
  (forall s, res_map events (fparse (escape_braces s)) = Ok (map inl s)) /\
  has_context brace_context = true /\
  prompt_of (services_failing brace_context) (message sample_request)
    = Raise err_single_rbrace /\
  analyze_symptom (services_failing brace_context) sample_request
    = Raise err_single_rbrace.
Proof.
  split.
  - intro s; rewrite <- (app_nil_r (escape_braces s)), escaped_text_parses_as_literal.
    simpl; rewrite app_nil_r; reflexivity.
  - split; [vm_compute; reflexivity|].
    split; vm_compute; reflexivity.
Qed.

(** *** The fallback path *)










(** *** C2: the failure path *)





(** *** C3: index initialisation on an empty corpus *)

(** Case analysis of [initialize_rag_system] down to its outcome. *)
Ltac init_split env force st :=
  unfold RAG.initialize_rag_system, RAG.initialize_rag_system_st, RAG.new_rag_system,
    RAG.get_embeddings, RAG.load_vectorstore, RAG.create_vectorstore;
  let Ei := fresh "Ei" in
  let Ec := fresh "Ec" in
  let El := fresh "El" in
  destruct (RAG.rag_instance st) as [?i|] eqn:Ei;
  [| destruct (RAG.cached_embeddings st) eqn:Ec;
     [| destruct (RAG.embedding_model_loads env) eqn:El]];
  cbn [res_bind fst snd RAG.set_instance RAG.set_fs RAG.fs RAG.rag_instance
       RAG.cached_embeddings RAG.vectorstore_dir RAG.pdf_files];
  try (destruct force);
  let Ed := fresh "Ed" in
  let Eo := fresh "Eo" in
  let Edocs := fresh "Edocs" in
  let Ea := fresh "Ea" in
  try (destruct (RAG.vectorstore_dir (RAG.fs st)) as [?stored|] eqn:Ed);
  try (destruct (RAG.chroma_opens env) eqn:Eo);
  cbn [fst snd];
  try (destruct (RAG.load_documents (RAG.fs st)) as [|?d0 ?ds] eqn:Edocs);
  try (destruct (RAG.chroma_adds env) eqn:Ea);
  cbn [andb res_bind fst snd RAG.set_instance RAG.set_fs RAG.fs RAG.rag_instance
       RAG.cached_embeddings RAG.vectorstore_dir RAG.pdf_files RAG.vectorstore].

Ltac close_goals :=
  repeat split; intros; try discriminate; try reflexivity; try assumption;
  try (left; reflexivity); try (right; reflexivity); try congruence.

(** C3 (as amended): when the embedding model is available, the instance
    held so far (if any) has no store, no PDF yields a document, and either
    [force_recreate] is set or no persisted store exists,
    [initialize_rag_system] returns an instance with no index, on which
    every search returns the empty list. *)
Theorem initialize_empty_corpus_no_index (env : RAG.Env) (force : bool) (st : RAG.State)
  (Hemb : RAG.cached_embeddings st = true \/ RAG.embedding_model_loads env = true)
  (Hinst : forall i, RAG.rag_instance st = Some i -> RAG.vectorstore i = None)
  (Hdocs : RAG.load_documents (RAG.fs st) = [])
  (Hdir : force = true \/ RAG.vectorstore_dir (RAG.fs st) = None) :
  exists inst st',
    RAG.initialize_rag_system env force st = Ok (inst, st') /\
    RAG.index_size inst = 0%nat /\
    forall q k, RAG.search env inst q k = [].
Proof.
  revert Hemb Hinst Hdocs Hdir.
  init_split env force st; intros Hemb Hinst Hdocs Hdir;
    try (destruct Hemb as [Hx|Hx]; discriminate Hx);
    try (destruct Hdir as [Hx|Hx]; discriminate Hx);
    try discriminate Hdocs;
    (eexists; eexists; split; [reflexivity|]);
    (split; [unfold RAG.index_size | intros q k; unfold RAG.search]);
    first [reflexivity | rewrite (Hinst _ eq_refl); reflexivity].
Qed.

Lemma initialize_empty_corpus_no_index_witness :
  (RAG.cached_embeddings state_empty = true \/ RAG.embedding_model_loads rag_env = true) /\
  (forall i, RAG.rag_instance state_empty = Some i -> RAG.vectorstore i = None) /\
  RAG.load_documents (RAG.fs state_empty) = [] /\
  (false = true \/ RAG.vectorstore_dir (RAG.fs state_empty) = None) /\
  exists inst st',
    RAG.initialize_rag_system rag_env false state_empty = Ok (inst, st') /\
    RAG.index_size inst = 0%nat /\
    forall q k, RAG.search rag_env inst q k = [].
Proof.
  split; [right; reflexivity|].
  split; [intros i H; discriminate H|].
  split; [vm_compute; reflexivity|].
  split; [right; reflexivity|].
  apply initialize_empty_corpus_no_index.
  - right; reflexivity.
  - intros i H; discriminate H.
  - vm_compute; reflexivity.
  - right; reflexivity.
Defined.

(** C3 does not hold as stated: with no PDF file at all, a store persisted
    by an earlier build is loaded, so the index is not empty and a search
    returns its entries. *)
Lemma c3_persisted_store_loaded :
  RAG.load_documents (RAG.fs state_stale_store) = [] /\
  res_map (fun p => RAG.index_size (fst p))
    (RAG.initialize_rag_system rag_env false state_stale_store) = Ok 1%nat /\
  res_map (fun p => RAG.search rag_env (fst p) (u "고열") 3)
    (RAG.initialize_rag_system rag_env false state_stale_store)
  = Ok [RAG.result_dict sample_doc].
Proof.
  split; [reflexivity|].
  split; vm_compute; reflexivity.
Qed.

(** *** C5: the [/api/chat] boundary *)

(** C5 (as amended): [chat] validates nothing; for every request it runs
    the pipeline, reports success when the pipeline returns, and reports
    every exception as a failure with code CHAT_ERROR and reason [str(e)]
    (the fixed message when [str(e)] is empty). *)
Theorem chat_reports_every_failure (svc : API.ChatServices) (req : ChatRequest) :
  API.success (API.chat svc req) = is_ok (API.chat_pipeline svc req) /\
  API.error (API.chat svc req)
  = match API.chat_pipeline svc req with
    | Ok _ => None
    | Raise e =>
        Some {| API.code := Some (u "CHAT_ERROR"); API.field := None;
                API.rejected_value := None;
                API.err_reason := Some (if truthy (PStr (exn_str e)) then exn_str e
                                        else u "AI 응답 생성 실패") |}
    end.
Proof.
  unfold API.chat; destruct (API.chat_pipeline svc req); split; reflexivity.
Qed.

(** C5 does not hold as stated: an empty message goes through the pipeline
    and succeeds, and a failure inside the pipeline on a non-empty message
    is surfaced with its reason. *)
Lemma c5_no_input_validation :
  message empty_request = [] /\
  API.success (API.chat chat_services_echo empty_request) = true /\
  message sample_request <> [] /\
  API.success (API.chat chat_services_boom sample_request) = false /\
  option_map API.err_reason (API.error (API.chat chat_services_boom sample_request))
  = Some (Some (u "quota exceeded")).
Proof.
  split; [reflexivity|].
  split; [reflexivity|].
  split; [discriminate|].
  split; vm_compute; reflexivity.
Qed.

(** *** C10: the mapping returned by [analyze_symptom] *)

Lemma str_join_ends_app (sep : pystr) (l1 l2 l3 l4 : list pyval) (x s : pystr) :
  str_join sep (l1 ++ l2 ++ l3 ++ l4 ++ [PStr x]) = Ok s -> exists pre, s = pre ++ x.
Proof.
  intro H; rewrite !app_assoc in H; exact (str_join_ends _ _ _ _ H).
Qed.

Lemma format_response_ends (v : pyval) (s : pystr) :
  format_response v = Ok s -> exists pre, s = pre ++ disclaimer.
Proof.
  unfold format_response; intro H.
  repeat match type of H with
  | res_bind ?m _ = Ok _ =>
      let E := fresh "E" in
      destruct m eqn:E; cbn [res_bind] in H; [|discriminate H]
  end.
  exact (str_join_ends_app _ _ _ _ _ _ _ H).
Qed.

Lemma fallback_parts_ends (routing : Routing) (ctx : pystr) :
  exists pre, format_fallback_response routing ctx = pre ++ disclaimer.
Proof.
  unfold format_fallback_response.
  rewrite (app_removelast_last [] (l := fallback_parts routing ctx)).
  - assert (Hl : last (fallback_parts routing ctx) [] = disclaimer).
    { unfold fallback_parts; cbv zeta; destruct (has_context ctx); reflexivity. }
    rewrite Hl; apply join_snoc.
  - unfold fallback_parts; cbv zeta; destruct (has_context ctx); discriminate.
Qed.

(** C10 (as amended): whenever [analyze_symptom] returns a mapping, its keys
    are exactly [response], [urgency_level] and [departments] in this
    order, and [response] is a string ending in the disclaimer line; on the
    fallback path [departments] is the one-element list of the routing
    hint's primary department; on the generative path the parsed answer is
    a dict and [departments] is its value for that key, or [[]] when the
    key is absent. *)
Theorem analyze_symptom_result_keys (svc : Services) (req : ChatRequest) (d : pydict)
  (H : analyze_symptom svc req = Ok d) :
  map fst d = [k_response; k_urgency_level; k_departments] /\
  (exists pre, assoc k_response d = Some (PStr (pre ++ disclaimer))) /\
  (is_ok (generative_outcome svc req) = false ->
   assoc k_departments d
   = Some (PList [PStr (primary_department (route_patient svc (message req)))])) /\
  (forall cp v, prompt_of svc (message req) = Ok cp ->
   chain_ainvoke svc cp (message req) = Ok v ->
   is_ok (generative_outcome svc req) = true ->
   exists dd, v = PDict dd /\ assoc k_departments d = Some (dict_get dd k_departments (PList []))).
Proof.
  unfold analyze_symptom in H; cbv zeta in H.
  assert (Hgo : forall cp, prompt_of svc (message req) = Ok cp ->
                generative_outcome svc req = generative_step svc cp (message req)).
  { intros cp Ep; unfold generative_outcome; rewrite Ep; reflexivity. }
  destruct (build_prompt _ _ _) as [cp|e] eqn:Ep; cbn [res_bind] in H; [|discriminate H].
  specialize (Hgo cp Ep).
  rewrite Hgo.
  destruct (generative_step svc cp (message req)) as [d0|e] eqn:Eg.
  - injection H as <-.
    unfold generative_step in Eg.
    repeat match type of Eg with
    | res_bind ?m _ = Ok _ =>
        let E := fresh "E" in
        destruct m eqn:E; cbn [res_bind] in Eg; [|discriminate Eg]
    end.
    injection Eg as <-.
    split; [reflexivity|].
    split; [|split; [intro Hf; discriminate Hf|]].
    + match goal with
      | Ef : format_response _ = Ok ?s |- _ =>
          destruct (format_response_ends _ _ Ef) as [pre Hpre]; exists pre; rewrite <- Hpre
      end.
      reflexivity.
    + intros cp' v Ep' Ech _.
      unfold prompt_of in Ep'; rewrite Ep in Ep'; injection Ep' as <-.
      match goal with
      | Ec : chain_ainvoke svc cp (message req) = Ok ?r,
        Ed : py_get ?r k_departments (PList []) = Ok _ |- _ =>
          rewrite Ech in Ec; injection Ec as <-;
          destruct v as [| | | | |dd]; cbn [py_get] in Ed; try discriminate Ed;
          injection Ed as <-; exists dd; split; reflexivity
      end.
  - injection H as <-.
    split; [reflexivity|].
    split; [|split].
    + destruct (fallback_parts_ends (route_patient svc (message req))
                  (get_relevant_knowledge svc (message req))) as [pre Hpre].
      exists pre; cbn [fallback_result assoc]; rewrite Hpre; reflexivity.
    + intros _; reflexivity.
    + intros cp' v _ _ Hok; discriminate Hok.
Qed.

Lemma analyze_symptom_result_keys_witness :
  analyze_symptom (services_failing long_context) sample_request
  = Ok (fallback_result sample_routing long_context) /\
  map fst (fallback_result sample_routing long_context)
  = [k_response; k_urgency_level; k_departments] /\
  (exists pre, assoc k_response (fallback_result sample_routing long_context)
               = Some (PStr (pre ++ disclaimer))) /\
  (is_ok (generative_outcome (services_failing long_context) sample_request) = false ->
   assoc k_departments (fallback_result sample_routing long_context)
   = Some (PList [PStr (primary_department
                          (route_patient (services_failing long_context)
                             (message sample_request)))])) /\
  (forall cp v, prompt_of (services_failing long_context) (message sample_request) = Ok cp ->
   chain_ainvoke (services_failing long_context) cp (message sample_request) = Ok v ->
   is_ok (generative_outcome (services_failing long_context) sample_request) = true ->
   exists dd, v = PDict dd /\
     assoc k_departments (fallback_result sample_routing long_context)
     = Some (dict_get dd k_departments (PList []))).
Proof.
  assert (Ha : analyze_symptom (services_failing long_context) sample_request
               = Ok (fallback_result sample_routing long_context))
    by (vm_compute; reflexivity).
  split; [exact Ha|].
  exact (analyze_symptom_result_keys _ _ _ Ha).
Defined.

(** C10 does not hold as stated: on the generative path [departments] is
    whatever the oracle returned, here [None]. *)
Lemma c10_departments_not_a_list :
  res_map (assoc k_departments)
    (analyze_symptom (services_returning oracle_null_departments) sample_request)
  = Ok (Some PNone).
Proof. vm_compute; reflexivity. Qed.

(* ------------------------------------------------------------------ *)
(** ** Further properties of the code *)

(** *** Prompt assembly *)

Lemma events_cons (p : piece) (ps : list piece) :
  events (p :: ps)
  = map inl (fst p) ++ match snd p with Some f => [inr f] | None => [] end ++ events ps.
Proof. unfold events; cbn [flat_map]; rewrite <- app_assoc; reflexivity. Qed.

Lemma map_inl_inj (a b : pystr) : map (@inl Z field) a = map inl b -> a = b.
Proof.
  revert b; induction a as [|x a IH]; intros [|y b] H; try discriminate H; [reflexivity|].
  injection H as Hxy Hab; rewrite Hxy, (IH b Hab); reflexivity.
Qed.

Lemma fformat_cons_lit (render : field -> pystr -> res pystr) (lit : pystr)
  (ps : list piece) (m : pystr) :
  fformat render ((lit, None) :: ps) m = res_map (fun t => lit ++ t) (fformat render ps m).
Proof.
  unfold fformat; cbn [res_mapM res_bind fst snd].
  destruct (res_mapM _ ps); reflexivity.
Qed.

(** Pieces with no replacement field format to their literal text. *)
Lemma events_literal (render : field -> pystr -> res pystr) (ps : list piece) (s m : pystr) :
  events ps = map inl s -> template_variables ps = [] /\ fformat render ps m = Ok s.
Proof.
  revert s; induction ps as [|[lit f] ps IH]; intros s H.
  - destruct s; [split; reflexivity|discriminate H].
  - rewrite events_cons in H; cbn [fst snd] in H.
    destruct f as [fld|].
    + exfalso.
      assert (Hin : In (inr fld) (map (@inl Z field) s)).
      { rewrite <- H; apply in_or_app; right; left; reflexivity. }
      apply in_map_iff in Hin; destruct Hin as [x [Hx _]]; discriminate Hx.
    + cbn [app] in H.
      symmetry in H; apply map_eq_app in H.
      destruct H as [l1 [l2 [-> [H1 H2]]]].
      apply map_inl_inj in H1; subst l1.
      destruct (IH l2 (eq_sym H2)) as [Hv Hf].
      split; [exact Hv|].
      rewrite fformat_cons_lit, Hf; reflexivity.
Qed.

Lemma brace_free_cons (c : Z) (s : pystr) :
  brace_free (c :: s) = negb (c =? lbrace) && negb (c =? rbrace) && brace_free s.
Proof. reflexivity. Qed.

Lemma brace_free_app (a b : pystr) :
  brace_free (a ++ b) = brace_free a && brace_free b.
Proof. unfold brace_free; apply forallb_app. Qed.

Lemma brace_free_escape (s : pystr) : brace_free s = true -> escape_braces s = s.
Proof.
  induction s as [|c s IH]; [reflexivity|].
  rewrite brace_free_cons; intro H.
  apply andb_prop in H; destruct H as [H Hs]; apply andb_prop in H; destruct H as [H1 H2].
  rewrite escape_braces_cons, (IH Hs).
  apply negb_true_iff in H1; apply negb_true_iff in H2.
  rewrite H1, H2; reflexivity.
Qed.

Lemma brace_free_parses (s t : pystr) :
  brace_free s = true ->
  res_map events (fparse (s ++ t))
  = res_map (fun ev => map inl s ++ ev) (res_map events (fparse t)).
Proof.
  intro H; pose proof (escaped_text_parses_as_literal s t) as E.
  rewrite (brace_free_escape s H) in E; exact E.
Qed.

Lemma brace_free_parses_all (s : pystr) :
  brace_free s = true -> res_map events (fparse s) = Ok (map inl s).
Proof.
  intro H; pose proof (brace_free_parses s [] H) as E; rewrite app_nil_r in E.
  rewrite E; cbn [res_map fparse fparse_go events flat_map]; rewrite app_nil_r; reflexivity.
Qed.

Lemma parse_lit_app (a t t' : pystr) :
  brace_free a = true -> res_map events (fparse t) = Ok (map inl t') ->
  res_map events (fparse (a ++ t)) = Ok (map inl (a ++ t')).
Proof.
  intros Ha Ht; rewrite (brace_free_parses a t Ha), Ht; cbn [res_map].
  rewrite map_app; reflexivity.
Qed.

Lemma parse_esc_app (a t t' : pystr) :
  res_map events (fparse t) = Ok (map inl t') ->
  res_map events (fparse (escape_braces a ++ t)) = Ok (map inl (a ++ t')).
Proof.
  intro Ht; rewrite escaped_text_parses_as_literal, Ht; cbn [res_map].
  rewrite map_app; reflexivity.
Qed.

Lemma sp_texts_brace_free :
  brace_free sp_text_intro = true /\ brace_free sp_text_label = true /\
  brace_free sp_text_reason = true /\ brace_free sp_text_before_rag = true /\
  brace_free sp_text_guide = true /\ brace_free sp_text_end = true /\
  brace_free rag_open = true /\ brace_free rag_close = true.
Proof. vm_compute; repeat split. Qed.

Lemma rag_section_brace_free (ctx : pystr) :
  (has_context ctx = true -> brace_free (firstn 1500 ctx) = true) ->
  brace_free (rag_section ctx) = true.
Proof.
  intro H; unfold rag_section.
  destruct (has_context ctx); [|reflexivity].
  destruct sp_texts_brace_free as [_ [_ [_ [_ [_ [_ [Ho Hc]]]]]]].
  unfold py_slice_to; rewrite !brace_free_app, Ho, Hc, (H eq_refl); reflexivity.
Qed.

Lemma system_prompt_parses (routing : Routing) (ctx fi : pystr)
  (Hd : brace_free (primary_department routing) = true)
  (Hl : brace_free (label (urgency routing)) = true)
  (Hr : brace_free (reason (urgency routing)) = true)
  (Hc : has_context ctx = true -> brace_free (firstn 1500 ctx) = true) :
  res_map events (fparse (system_prompt routing ctx (escape_braces fi)))
  = Ok (map inl (system_prompt routing ctx fi)).
Proof.
  destruct sp_texts_brace_free as [Hi [Hla [Hre [Hb [Hg [He _]]]]]].
  pose proof (rag_section_brace_free ctx Hc) as Hrag.
  unfold system_prompt.
  apply (parse_lit_app _ _ _ Hi), (parse_lit_app _ _ _ Hd), (parse_lit_app _ _ _ Hla),
    (parse_lit_app _ _ _ Hl), (parse_lit_app _ _ _ Hre), (parse_lit_app _ _ _ Hr),
    (parse_lit_app _ _ _ Hb), (parse_lit_app _ _ _ Hrag), (parse_lit_app _ _ _ Hg),
    parse_esc_app, (brace_free_parses_all _ He).
Qed.

Lemma res_map_ok_inv {A B} (f : A -> B) (r : res A) (b : B) :
  res_map f r = Ok b -> exists a, r = Ok a /\ f a = b.
Proof.
  destruct r as [a|e]; cbn [res_map]; intro H; [|discriminate H].
  exists a; split; [reflexivity|]; injection H as H; exact H.
Qed.

Lemma user_template_pieces : fparse user_template = Ok user_template_parsed.
Proof. vm_compute; reflexivity. Qed.

Lemma user_template_variables :
  get_template_variables user_template = Ok user_template_parsed.
Proof. vm_compute; reflexivity. Qed.

Lemma get_template_variables_literal (s : pystr) (ps : list piece) :
  fparse s = Ok ps -> template_variables ps = [] -> get_template_variables s = Ok ps.
Proof.
  intros Hp Hv; unfold get_template_variables; rewrite Hp; cbn [res_bind].
  rewrite Hv; reflexivity.
Qed.

Lemma user_template_formats (render : field -> pystr -> res pystr) (m : pystr) :
  fformat render user_template_parsed m = Ok (user_message m).
Proof.
  unfold fformat, user_template_parsed; cbn [res_mapM res_bind fst snd fname fconv fspec].
  rewrite pystr_eqb_refl; cbn [res_bind concat].
  unfold user_message; rewrite app_nil_r, <- !app_assoc; reflexivity.
Qed.

Lemma validate_system_user (ps : list piece) :
  template_variables ps = [] ->
  validate_input [(u "system", ps); (u "user", user_template_parsed)] = Ok tt.
Proof.
  intro H; unfold validate_input; cbn [flat_map snd]; rewrite H; reflexivity.
Qed.

(** When the department, label and reason of the routing hint and the
    retrieved text that is inserted hold no brace, the prompt is built and
    the model receives the system prompt with the format instructions as
    [parser.get_format_instructions()] gave them, and the user message with
    the symptom text inserted verbatim, braces included. *)
Theorem prompt_payload_verbatim (svc : Services) (text : pystr)
  (Hd : brace_free (primary_department (route_patient svc text)) = true)
  (Hl : brace_free (label (urgency (route_patient svc text))) = true)
  (Hr : brace_free (reason (urgency (route_patient svc text))) = true)
  (Hc : has_context (get_relevant_knowledge svc text) = true ->
        brace_free (firstn 1500 (get_relevant_knowledge svc text)) = true) :
  exists cp, prompt_of svc text = Ok cp /\
    forall m, chain_ainvoke svc cp m
              = run_chain svc
                  [(u "system", system_prompt (route_patient svc text)
                                  (get_relevant_knowledge svc text)
                                  (format_instructions_raw svc));
                   (u "user", user_message m)].
Proof.
  pose proof (system_prompt_parses _ _ (format_instructions_raw svc) Hd Hl Hr Hc) as Hs.
  destruct (res_map_ok_inv _ _ _ Hs) as [ps [Es Hev]].
  exists [(u "system", ps); (u "user", user_template_parsed)].
  assert (Hv : template_variables ps = [])
    by exact (proj1 (events_literal (render_field svc) _ _ [] Hev)).
  split.
  - unfold prompt_of, build_prompt, from_messages; cbn [res_mapM fst snd].
    rewrite (get_template_variables_literal _ _ Es Hv), user_template_variables; reflexivity.
  - intro m; destruct (events_literal (render_field svc) _ _ m Hev) as [_ Hf].
    unfold chain_ainvoke; rewrite (validate_system_user ps Hv); cbn [res_bind res_mapM fst snd].
    rewrite Hf, user_template_formats; reflexivity.
Qed.

Lemma prompt_payload_verbatim_witness :
  brace_free (primary_department (route_patient (services_failing long_context) (u "{x}"))) = true /\
  brace_free (label (urgency (route_patient (services_failing long_context) (u "{x}")))) = true /\
  brace_free (reason (urgency (route_patient (services_failing long_context) (u "{x}")))) = true /\
  (has_context (get_relevant_knowledge (services_failing long_context) (u "{x}")) = true ->
   brace_free (firstn 1500 (get_relevant_knowledge (services_failing long_context) (u "{x}")))
   = true) /\
  exists cp, prompt_of (services_failing long_context) (u "{x}") = Ok cp /\
    forall m, chain_ainvoke (services_failing long_context) cp m
              = run_chain (services_failing long_context)
                  [(u "system", system_prompt
                                  (route_patient (services_failing long_context) (u "{x}"))
                                  (get_relevant_knowledge (services_failing long_context)
                                     (u "{x}"))
                                  (format_instructions_raw (services_failing long_context)));
                   (u "user", user_message m)].
Proof.
  split; [vm_compute; reflexivity|].
  split; [vm_compute; reflexivity|].
  split; [vm_compute; reflexivity|].
  split; [intros _; vm_compute; reflexivity|].
  apply prompt_payload_verbatim.
  - vm_compute; reflexivity.
  - vm_compute; reflexivity.
  - vm_compute; reflexivity.
  - intros _; vm_compute; reflexivity.
Defined.


(** *** Errors of [format_response] *)

Lemma raise_inj {A} (e1 e2 : exn) : @Raise A e1 = Raise e2 -> e1 = e2.
Proof. intro H; injection H; exact (fun E => E). Qed.

Lemma str_table_get_raise (t : list (pystr * pystr)) (v : pyval) (dflt : pystr) (e : exn) :
  str_table_get t v dflt = Raise e -> exn_type e = TypeError.
Proof.
  destruct v; cbn [str_table_get]; intro H; try discriminate H;
    rewrite <- (raise_inj _ _ H); reflexivity.
Qed.

Lemma py_iter_raise (v : pyval) (e : exn) :
  py_iter v = Raise e -> exn_type e = TypeError.
Proof.
  destruct v; cbn [py_iter]; intro H; try discriminate H;
    rewrite <- (raise_inj _ _ H); reflexivity.
Qed.

Lemma str_join_raise (sep : pystr) (l : list pyval) (e : exn) :
  str_join sep l = Raise e -> exn_type e = TypeError.
Proof.
  unfold str_join.
  destruct (res_mapM _ l) as [ss|e'] eqn:E; cbn [res_bind]; intro H; [discriminate H|].
  injection H as <-; revert E; induction l as [|x l IH]; cbn [res_mapM]; intro E;
    [discriminate E|].
  destruct x; cbn [res_bind] in E;
    try (rewrite <- (raise_inj _ _ E); reflexivity);
    (destruct (res_mapM _ l); cbn [res_bind] in E; [discriminate E|apply IH; exact E]).
Qed.

Lemma str_join_ok_strs (sep : pystr) (l : list pyval) (s : pystr) :
  str_join sep l = Ok s -> forall x, In x l -> exists t, x = PStr t.
Proof.
  unfold str_join.
  destruct (res_mapM _ l) as [ss|e'] eqn:E; cbn [res_bind]; intro H; [|discriminate H].
  clear H; revert ss E; induction l as [|x l IH]; intros ss E y Hy; [destruct Hy|].
  cbn [res_mapM] in E.
  destruct x; cbn [res_bind] in E; try discriminate E.
  destruct (res_mapM _ l) as [ss'|e''] eqn:E'; cbn [res_bind] in E; [|discriminate E].
  destruct Hy as [<-|Hy]; [eexists; reflexivity|exact (IH ss' eq_refl y Hy)].
Qed.

Lemma list_section_raise (h : pystr) (line : pyval -> pystr) (v : pyval) (e : exn) :
  list_section h line v = Raise e -> exn_type e = TypeError.
Proof.
  unfold list_section; destruct (truthy v); intro H; [|discriminate H].
  destruct (py_iter v) as [xs|e'] eqn:E; cbn [res_bind] in H; [discriminate H|].
  injection H as <-; exact (py_iter_raise _ _ E).
Qed.

Lemma dict_get_some (d : pydict) (k : pystr) (x v : pyval) :
  assoc k d = Some v -> dict_get d k x = v.
Proof. unfold dict_get; intro H; rewrite H; reflexivity. Qed.

Ltac raise_from :=
  let H := fresh "H" in
  intro H; apply raise_inj in H; subst;
  match goal with
  | E : str_table_get _ _ _ = Raise _ |- _ => exact (str_table_get_raise _ _ _ _ E)
  | E : py_iter _ = Raise _ |- _ => exact (py_iter_raise _ _ E)
  | E : str_join _ _ = Raise _ |- _ => exact (str_join_raise _ _ _ E)
  | E : list_section _ _ _ = Raise _ |- _ => exact (list_section_raise _ _ _ _ E)
  end.

Ltac bind_raise_step :=
  match goal with
  | |- res_bind (res_bind ?m _) _ = _ -> _ =>
      let E := fresh "E" in destruct m eqn:E; cbn [res_bind]; [|raise_from]
  | |- res_bind ?m _ = _ -> _ =>
      let E := fresh "E" in destruct m eqn:E; cbn [res_bind]; [|raise_from]
  end.

Ltac bind_ok_step F :=
  match type of F with
  | res_bind (res_bind ?m _) _ = Ok _ =>
      let E := fresh "E" in destruct m eqn:E; cbn [res_bind] in F; [|discriminate F]
  | res_bind ?m _ = Ok _ =>
      let E := fresh "E" in destruct m eqn:E; cbn [res_bind] in F; [|discriminate F]
  end.

(** [format_response] raises [AttributeError] on any value that is not a
    dict; on a dict it raises only [TypeError], and it does so when
    [friendly_message] is present but not a string, or when [departments]
    is a non-empty list with an item that is not a string. *)
Theorem format_response_errors :
  (forall v, (forall d, v <> PDict d) ->
     exists msg, format_response v = Raise (Exn AttributeError msg)) /\
  (forall d e, format_response (PDict d) = Raise e -> exn_type e = TypeError) /\
  (forall d,
     (exists v, assoc k_friendly_message d = Some v /\ forall s, v <> PStr s) \/
     (exists l x, assoc k_departments d = Some (PList l) /\ In x l /\ forall s, x <> PStr s) ->
     exists e, format_response (PDict d) = Raise e).
Proof.
  split; [|split].
  - intros v Hv; destruct v; try (eexists; reflexivity).
    exfalso; exact (Hv kv eq_refl).
  - intros d e; unfold format_response; rewrite !py_get_dict; cbn [res_bind].
    destruct (truthy (dict_get d k_departments (PList []))); cbn [res_bind];
      repeat bind_raise_step; apply str_join_raise.
  - intros d Hbad.
    destruct (format_response (PDict d)) as [s|e] eqn:F; [exfalso|eexists; reflexivity].
    unfold format_response in F; rewrite !py_get_dict in F; cbn [res_bind] in F.
    repeat bind_ok_step F.
    pose proof (str_join_ok_strs _ _ _ F) as Hstrs.
    destruct Hbad as [[v [Hv Hns]]|[l [x [Hl [Hx Hns]]]]].
    + rewrite (dict_get_some _ _ _ _ Hv) in Hstrs.
      destruct (Hstrs v (or_introl eq_refl)) as [t Ht]; exact (Hns t Ht).
    + match goal with
      | Ed : (if truthy (dict_get d k_departments _) then _ else _) = Ok _ |- _ =>
          rewrite (dict_get_some _ _ _ _ Hl) in Ed;
          destruct l as [|y l]; [destruct Hx|];
          cbn [truthy py_iter length Nat.eqb negb res_bind] in Ed;
          repeat bind_ok_step Ed
      end.
      match goal with
      | Ej : str_join _ (y :: l) = Ok _ |- _ =>
          destruct (str_join_ok_strs _ _ _ Ej x Hx) as [t Ht]; exact (Hns t Ht)
      end.
Qed.



(** A dict holding none of the six keys is rendered with the defaults:
    the generic friendly message, the green 자가관찰 urgency line, an empty
    reason, no list section, and the disclaimer. *)
Theorem format_response_missing_keys (d : pydict)
  (H1 : assoc k_urgency_level d = None) (H2 : assoc k_urgency_reason d = None)
  (H3 : assoc k_departments d = None) (H4 : assoc k_immediate_actions d = None)
  (H5 : assoc k_precautions d = None) (H6 : assoc k_friendly_message d = None) :
  format_response (PDict d) = Ok default_response.
Proof.
  unfold format_response; rewrite !py_get_dict; unfold dict_get.
  rewrite H1, H2, H3, H4, H5, H6.
  vm_compute; reflexivity.
Qed.

Lemma format_response_missing_keys_witness :
  let d := [(u "source", PStr (u "guide.pdf"))] in
  (assoc k_urgency_level d = None /\ assoc k_urgency_reason d = None /\
   assoc k_departments d = None /\ assoc k_immediate_actions d = None /\
   assoc k_precautions d = None /\ assoc k_friendly_message d = None) /\
  format_response (PDict d) = Ok default_response.
Proof.
  intro d.
  split; [vm_compute; repeat split|].
  apply format_response_missing_keys; vm_compute; reflexivity.
Defined.

(** *** [departments] given as a string *)

Lemma str_dict_get_level (a : AnalysisResult) (s : pystr) (x : pyval) :
  dict_get (analysis_dict_str_departments a s) k_urgency_level x = PStr (a_urgency_level a).
Proof. reflexivity. Qed.

Lemma str_dict_get_reason (a : AnalysisResult) (s : pystr) (x : pyval) :
  dict_get (analysis_dict_str_departments a s) k_urgency_reason x = PStr (a_urgency_reason a).
Proof. reflexivity. Qed.

Lemma str_dict_get_departments (a : AnalysisResult) (s : pystr) (x : pyval) :
  dict_get (analysis_dict_str_departments a s) k_departments x = PStr s.
Proof. reflexivity. Qed.

Lemma str_dict_get_actions (a : AnalysisResult) (s : pystr) (x : pyval) :
  dict_get (analysis_dict_str_departments a s) k_immediate_actions x
  = PList (map PStr (a_immediate_actions a)).
Proof. reflexivity. Qed.

Lemma str_dict_get_precautions (a : AnalysisResult) (s : pystr) (x : pyval) :
  dict_get (analysis_dict_str_departments a s) k_precautions x
  = PList (map PStr (a_precautions a)).
Proof. reflexivity. Qed.

Lemma str_dict_get_friendly (a : AnalysisResult) (s : pystr) (x : pyval) :
  dict_get (analysis_dict_str_departments a s) k_friendly_message x
  = PStr (a_friendly_message a).
Proof. reflexivity. Qed.

Lemma format_response_analysis (a : AnalysisResult) :
  format_response (PDict (analysis_dict a)) = Ok (render_spec a).
Proof.
  unfold format_response; cbv zeta.
  rewrite !py_get_dict, !analysis_get_level, !analysis_get_friendly,
    !analysis_get_reason, !analysis_get_departments, !analysis_get_actions,
    !analysis_get_precautions.
  cbn [res_bind].
  rewrite urgency_emoji_get; cbn [res_bind].
  rewrite departments_section; cbn [res_bind].
  rewrite list_section_strs; cbn [res_bind].
  rewrite list_section_strs; cbn [res_bind py_str].
  change [PStr disclaimer] with (map PStr [disclaimer]).
  rewrite <- !map_app.
  change ([PStr (a_friendly_message a); PStr [];
           PStr (tier_emoji (a_urgency_level a) ++ u " 응급도: " ++ a_urgency_level a);
           PStr (u "└─ " ++ a_urgency_reason a); PStr []])
    with (map PStr [a_friendly_message a; [];
                    tier_emoji (a_urgency_level a) ++ u " 응급도: " ++ a_urgency_level a;
                    u "└─ " ++ a_urgency_reason a; []]).
  rewrite <- map_app, str_join_strs.
  reflexivity.
Qed.

Lemma format_response_str_departments_eq (a : AnalysisResult) (s : pystr) :
  format_response (PDict (analysis_dict_str_departments a s))
  = format_response (PDict (analysis_dict
      {| a_urgency_level := a_urgency_level a; a_urgency_reason := a_urgency_reason a;
         a_departments := map (fun c => [c]) s;
         a_immediate_actions := a_immediate_actions a; a_precautions := a_precautions a;
         a_friendly_message := a_friendly_message a |})).
Proof.
  unfold format_response; cbv zeta.
  rewrite !py_get_dict, !analysis_get_level, !analysis_get_friendly,
    !analysis_get_reason, !analysis_get_departments, !analysis_get_actions,
    !analysis_get_precautions.
  rewrite !str_dict_get_level, !str_dict_get_friendly, !str_dict_get_reason,
    !str_dict_get_departments, !str_dict_get_actions, !str_dict_get_precautions.
  cbn [a_urgency_level a_urgency_reason a_departments a_immediate_actions
       a_precautions a_friendly_message].
  destruct s as [|c r]; [reflexivity|].
  cbn [truthy py_iter length Nat.eqb negb].
  rewrite map_map; reflexivity.
Qed.

(** When the parsed answer gives [departments] as a string instead of a
    list, [', '.join] runs over its characters: the departments line lists
    the characters of the string separated by commas. *)
Theorem format_response_string_departments (a : AnalysisResult) (s : pystr) :
  format_response (PDict (analysis_dict_str_departments a s))
  = Ok (render_spec
          {| a_urgency_level := a_urgency_level a; a_urgency_reason := a_urgency_reason a;
             a_departments := map (fun c => [c]) s;
             a_immediate_actions := a_immediate_actions a; a_precautions := a_precautions a;
             a_friendly_message := a_friendly_message a |}).
Proof. rewrite format_response_str_departments_eq; apply format_response_analysis. Qed.

(** *** PDF text extraction *)

Lemma lstrip_suffix (s : pystr) : exists p, s = p ++ RAG.lstrip s.
Proof.
  induction s as [|c r [p Hp]]; [exists []; reflexivity|].
  cbn [RAG.lstrip]; destruct (RAG.py_isspace c).
  - exists (c :: p); rewrite Hp at 1; reflexivity.
  - exists []; reflexivity.
Qed.

Lemma lstrip_idem (s : pystr) : RAG.lstrip (RAG.lstrip s) = RAG.lstrip s.
Proof.
  induction s as [|c r IH]; [reflexivity|].
  cbn [RAG.lstrip]; destruct (RAG.py_isspace c) eqn:Hc; [exact IH|].
  cbn [RAG.lstrip]; rewrite Hc; reflexivity.
Qed.

Lemma lstrip_head (s : pystr) (c : Z) (r : pystr) :
  RAG.lstrip s = c :: r -> RAG.py_isspace c = false.
Proof.
  induction s as [|c' s IH]; cbn [RAG.lstrip]; intro H; [discriminate H|].
  destruct (RAG.py_isspace c') eqn:Hc; [exact (IH H)|].
  injection H as <- _; exact Hc.
Qed.

(** [s.strip()] leaves no white space at either end. *)
Lemma py_strip_stripped (s : pystr) :
  RAG.lstrip (RAG.py_strip s) = RAG.py_strip s /\
  RAG.lstrip (rev (RAG.py_strip s)) = rev (RAG.py_strip s).
Proof.
  unfold RAG.py_strip.
  split; [|rewrite rev_involutive; apply lstrip_idem].
  destruct (lstrip_suffix (rev (RAG.lstrip s))) as [p Hp].
  assert (Ht : RAG.lstrip s = rev (RAG.lstrip (rev (RAG.lstrip s))) ++ rev p).
  { rewrite <- rev_app_distr, <- Hp, rev_involutive; reflexivity. }
  destruct (rev (RAG.lstrip (rev (RAG.lstrip s)))) as [|c r] eqn:E; [reflexivity|].
  cbn [app] in Ht.
  cbn [RAG.lstrip]; rewrite (lstrip_head _ _ _ Ht); reflexivity.
Qed.

Lemma page_documents_in (f : pystr) (p : Z) (pages : list (option pystr)) (d : RAG.Document) :
  In d (RAG.page_documents f p pages) <->
  exists i text, nth_error pages i = Some (Some text) /\ RAG.py_strip text <> [] /\
                 d = page_document f (p + Z.of_nat i) text.
Proof.
  revert p; induction pages as [|o r IH]; intro p; cbn [RAG.page_documents].
  - split; [intros []|intros [i [t [H _]]]; destruct i; discriminate H].
  - assert (Hshift : (exists i text, nth_error r i = Some (Some text) /\
                        RAG.py_strip text <> [] /\ d = page_document f (p + 1 + Z.of_nat i) text)
                     -> exists i text, nth_error (o :: r) i = Some (Some text) /\
                        RAG.py_strip text <> [] /\ d = page_document f (p + Z.of_nat i) text).
    { intros [i [t [H1 [H2 H3]]]]; exists (S i), t; split; [exact H1|]; split; [exact H2|].
      rewrite H3; f_equal; lia. }
    destruct o as [text|].
    + destruct (Nat.eqb (length (RAG.py_strip text)) 0) eqn:E.
      * rewrite IH; split; [exact Hshift|].
        intros [[|i] [t [H1 [H2 H3]]]].
        -- injection H1 as <-; apply Nat.eqb_eq, length_zero_iff_nil in E; contradiction.
        -- exists i, t; split; [exact H1|]; split; [exact H2|]; rewrite H3; f_equal; lia.
      * split.
        -- intros [Hd|Hd].
           ++ exists 0%nat, text; split; [reflexivity|]; split.
              ** intro Hn; rewrite Hn in E; discriminate E.
              ** rewrite <- Hd, Z.add_0_r; reflexivity.
           ++ apply Hshift, IH, Hd.
        -- intros [[|i] [t [H1 [H2 H3]]]].
           ++ injection H1 as <-; left; rewrite H3, Z.add_0_r; reflexivity.
           ++ right; apply IH; exists i, t; split; [exact H1|]; split; [exact H2|].
              rewrite H3; f_equal; lia.
    + rewrite IH; split; [exact Hshift|].
      intros [[|i] [t [H1 [H2 H3]]]]; [discriminate H1|].
      exists i, t; split; [exact H1|]; split; [exact H2|]; rewrite H3; f_equal; lia.
Qed.

(** The documents extracted from a PDF are exactly its pages whose text is
    not blank, one per page, numbered from 1 in [page] and in the
    [source] label; each document's content is the page text stripped,
    non-empty and with no white space at either end. *)
Theorem extract_text_from_pdf_pages (filename : pystr) (pages : list (option pystr)) :
  (forall d, In d (RAG.extract_text_from_pdf (filename, Some pages)) <->
     exists i text, nth_error pages i = Some (Some text) /\ RAG.py_strip text <> [] /\
                    d = page_document filename (1 + Z.of_nat i) text) /\
  (forall d, In d (RAG.extract_text_from_pdf (filename, Some pages)) ->
     RAG.page_content d <> [] /\
     RAG.lstrip (RAG.page_content d) = RAG.page_content d /\
     RAG.lstrip (rev (RAG.page_content d)) = rev (RAG.page_content d)).
Proof.
  split; [intro d; exact (page_documents_in filename 1 pages d)|].
  intros d Hd; apply (page_documents_in filename 1 pages d) in Hd.
  destruct Hd as [i [t [_ [Hne ->]]]]; cbn [page_document RAG.page_content].
  split; [exact Hne|]; exact (py_strip_stripped t).
Qed.

Lemma flat_map_nil_iff {A B} (f : A -> list B) (l : list A) :
  flat_map f l = [] <-> forall x, In x l -> f x = [].
Proof.
  induction l as [|x l IH]; cbn [flat_map]; [split; [intros _ y []|reflexivity]|].
  split.
  - intro H; apply app_eq_nil in H; destruct H as [H1 H2].
    intros y [<-|Hy]; [exact H1|exact (proj1 IH H2 y Hy)].
  - intro H; rewrite (H x (or_introl eq_refl)), (proj2 IH (fun y Hy => H y (or_intror Hy))).
    reflexivity.
Qed.

Lemma page_documents_nil (f : pystr) (p : Z) (pages : list (option pystr)) :
  RAG.page_documents f p pages = [] <->
  forall text, In (Some text) pages -> RAG.py_strip text = [].
Proof.
  split.
  - intros H text Ht.
    destruct (RAG.py_strip text) as [|c r] eqn:E; [reflexivity|exfalso].
    apply In_nth_error in Ht; destruct Ht as [i Hi].
    assert (Hin : In (page_document f (p + Z.of_nat i) text) (RAG.page_documents f p pages)).
    { apply page_documents_in; exists i, text; split; [exact Hi|]; split; [rewrite E; discriminate|].
      reflexivity. }
    rewrite H in Hin; exact Hin.
  - intro H.
    destruct (RAG.page_documents f p pages) as [|d ds] eqn:E; [reflexivity|exfalso].
    assert (Hin : In d (RAG.page_documents f p pages)) by (rewrite E; left; reflexivity).
    apply page_documents_in in Hin; destruct Hin as [i [t [Hi [Hne _]]]].
    exact (Hne (H t (nth_error_In _ _ Hi))).
Qed.

(** [load_documents] returns no document exactly when no page of any PDF
    that could be opened has a non-blank text. *)
Theorem load_documents_empty_iff (files : RAG.FS) :
  RAG.load_documents files = [] <->
  forall name pages, In (name, Some pages) (RAG.pdf_files files) ->
    forall text, In (Some text) pages -> RAG.py_strip text = [].
Proof.
  unfold RAG.load_documents; rewrite flat_map_nil_iff; split.
  - intros H name pages Hin.
    apply (page_documents_nil name 1 pages), (H _ Hin).
  - intros H [name [pages|]] Hin; cbn [RAG.extract_text_from_pdf fst snd]; [|reflexivity].
    apply page_documents_nil; exact (H name pages Hin).
Qed.

(** *** The RAG globals *)

Lemma init_proj_ok (env : RAG.Env) (force : bool) (st : RAG.State)
  (inst : RAG.RAGSystem) (st' : RAG.State) :
  RAG.initialize_rag_system env force st = Ok (inst, st') <->
  RAG.initialize_rag_system_st env force st = (Ok inst, st').
Proof.
  unfold RAG.initialize_rag_system.
  destruct (RAG.initialize_rag_system_st env force st) as [[i|e] st1];
    split; intro H; try discriminate H; injection H as <- <-; reflexivity.
Qed.

Lemma init_proj_raise (env : RAG.Env) (force : bool) (st : RAG.State) (e : exn) :
  RAG.initialize_rag_system env force st = Raise e <->
  exists st', RAG.initialize_rag_system_st env force st = (Raise e, st').
Proof.
  unfold RAG.initialize_rag_system.
  destruct (RAG.initialize_rag_system_st env force st) as [[i|e'] st1]; split.
  - intro H; discriminate H.
  - intros [st' H]; discriminate H.
  - intro H; injection H as <-; exists st1; reflexivity.
  - intros [st' H]; injection H as <- _; reflexivity.
Qed.

Lemma init_st_raise (env : RAG.Env) (force : bool) (st : RAG.State) (e : exn)
  (st' : RAG.State) :
  RAG.initialize_rag_system_st env force st = (Raise e, st') ->
  (RAG.rag_instance st = None /\ RAG.cached_embeddings st = false /\
   RAG.embedding_model_loads env = false /\ st' = st) \/
  (RAG.load_documents (RAG.fs st) <> [] /\
   (RAG.chroma_opens env = false \/ RAG.chroma_adds env = false) /\
   RAG.rag_instance st'
   = Some (match RAG.rag_instance st with
           | Some i => i | None => {| RAG.vectorstore := None |} end) /\
   RAG.fs st'
   = {| RAG.vectorstore_dir :=
          Some (match RAG.vectorstore_dir (RAG.fs st) with Some o => o | None => [] end);
        RAG.pdf_files := RAG.pdf_files (RAG.fs st) |} /\
   (RAG.rag_instance st = None -> RAG.cached_embeddings st' = true)).
Proof.
  init_split env force st; intro H; try discriminate H;
    injection H as _ <-.
  all: try (left; close_goals; fail).
  all: right; rewrite ?Ei, ?Ed; close_goals.
Qed.

Lemma init_st_ok (env : RAG.Env) (force : bool) (st : RAG.State)
  (inst : RAG.RAGSystem) (st' : RAG.State) :
  RAG.initialize_rag_system_st env force st = (Ok inst, st') ->
  RAG.rag_instance st' = Some inst /\
  RAG.pdf_files (RAG.fs st') = RAG.pdf_files (RAG.fs st) /\
  (RAG.rag_instance st = None -> RAG.cached_embeddings st' = true) /\
  (RAG.rag_instance st <> None -> RAG.cached_embeddings st' = RAG.cached_embeddings st).
Proof.
  init_split env force st; intro H; try discriminate H;
    injection H as <- <-; cbn; close_goals.
Qed.

Lemma init_false_idem (env : RAG.Env) (st : RAG.State)
  (inst : RAG.RAGSystem) (st' : RAG.State) :
  RAG.initialize_rag_system_st env false st = (Ok inst, st') ->
  forall env', RAG.chroma_opens env' = RAG.chroma_opens env ->
  RAG.initialize_rag_system_st env' false st' = (Ok inst, st').
Proof.
  init_split env false st; intro H; try discriminate H;
    injection H as <- <-; intros env' Hop;
    unfold RAG.initialize_rag_system_st, RAG.load_vectorstore, RAG.create_vectorstore;
    cbn [res_bind fst snd RAG.set_instance RAG.set_fs RAG.fs RAG.rag_instance
         RAG.cached_embeddings RAG.vectorstore_dir RAG.pdf_files RAG.vectorstore];
    rewrite ?Ed, ?Hop, ?Eo, ?Edocs; reflexivity.
Qed.

Lemma get_rag_system_instance (env : RAG.Env) (st : RAG.State) (i : RAG.RAGSystem) :
  RAG.rag_instance st = Some i -> RAG.get_rag_system env st = (Ok (Some i), st).
Proof. intro H; unfold RAG.get_rag_system; rewrite H; reflexivity. Qed.

Lemma get_rag_system_ok (env : RAG.Env) (st : RAG.State)
  (r : option RAG.RAGSystem) (st' : RAG.State) :
  RAG.get_rag_system env st = (Ok r, st') ->
  exists i, r = Some i /\ RAG.rag_instance st' = Some i /\
            (forall i0, RAG.rag_instance st = Some i0 -> st' = st).
Proof.
  unfold RAG.get_rag_system; destruct (RAG.rag_instance st) as [i0|] eqn:Ei.
  - intro H; injection H as <- <-; exists i0; auto.
  - destruct (RAG.initialize_rag_system_st env false st) as [[inst|e] st1] eqn:Hinit;
      cbn [fst snd]; intro H; [|discriminate H].
    injection H as <- <-.
    destruct (init_st_ok _ _ _ _ _ Hinit) as [Hi _].
    exists inst; split; [exact Hi|]; split; [exact Hi|].
    intros i0 Hc; discriminate Hc.
Qed.

Lemma get_rag_system_raise (env : RAG.Env) (st : RAG.State) (e : exn) (st' : RAG.State) :
  RAG.get_rag_system env st = (Raise e, st') ->
  RAG.rag_instance st = None /\
  ((RAG.embedding_model_loads env = false /\ st' = st) \/
   ((RAG.chroma_opens env = false \/ RAG.chroma_adds env = false) /\
    RAG.rag_instance st' = Some {| RAG.vectorstore := None |})).
Proof.
  unfold RAG.get_rag_system; destruct (RAG.rag_instance st) as [i0|] eqn:Ei;
    [intro H; discriminate H|].
  destruct (RAG.initialize_rag_system_st env false st) as [[inst|e'] st1] eqn:Hinit;
    cbn [fst snd]; intro H; [discriminate H|].
  injection H as <- <-; split; [reflexivity|].
  destruct (init_st_raise _ _ _ _ _ Hinit) as [[_ [_ [Hl Hs]]]|[_ [Ho [Hi _]]]].
  - left; split; assumption.
  - right; split; [exact Ho|]; rewrite Hi, Ei; reflexivity.
Qed.

(** [get_embeddings] loads the model at most once: a successful call
    leaves the cache set and the rest of the state unchanged, and every
    later call returns at once whatever the environment; a call raises
    only when nothing is cached and the model cannot be loaded. *)
Theorem get_embeddings_cache (env : RAG.Env) (st : RAG.State) :
  (forall st', RAG.get_embeddings env st = Ok st' ->
     RAG.cached_embeddings st' = true /\ RAG.rag_instance st' = RAG.rag_instance st /\
     RAG.fs st' = RAG.fs st /\ forall env', RAG.get_embeddings env' st' = Ok st') /\
  (forall e, RAG.get_embeddings env st = Raise e ->
     RAG.cached_embeddings st = false /\ RAG.embedding_model_loads env = false).
Proof.
  unfold RAG.get_embeddings.
  destruct (RAG.cached_embeddings st) eqn:Ec;
    [|destruct (RAG.embedding_model_loads env) eqn:El]; split;
    intros ? H; try discriminate H.
  - injection H as <-; rewrite Ec; auto.
  - injection H as <-; cbn; auto.
  - auto.
Qed.

(** [initialize_rag_system] raises in two ways.  On first use, when the
    embedding model cannot be loaded, it leaves the state unchanged.  When
    there are documents to index and Chroma cannot open or write the
    collection, [_rag_instance] already holds the instance (the previous
    one, or a fresh one without store) and the store directory exists with
    its collection unchanged.  When it returns an instance, that instance
    is the one stored in [_rag_instance], the PDF files are untouched, and
    the embedding cache is set if the instance had to be created. *)
Theorem initialize_rag_system_state (env : RAG.Env) (force : bool) (st : RAG.State) :
  (forall e st', RAG.initialize_rag_system_st env force st = (Raise e, st') ->
     (RAG.rag_instance st = None /\ RAG.embedding_model_loads env = false /\ st' = st) \/
     (RAG.load_documents (RAG.fs st) <> [] /\
      (RAG.chroma_opens env = false \/ RAG.chroma_adds env = false) /\
      RAG.rag_instance st'
      = Some (match RAG.rag_instance st with
              | Some i => i | None => {| RAG.vectorstore := None |} end) /\
      RAG.fs st'
      = {| RAG.vectorstore_dir :=
             Some (match RAG.vectorstore_dir (RAG.fs st) with Some o => o | None => [] end);
           RAG.pdf_files := RAG.pdf_files (RAG.fs st) |})) /\
  (forall inst st', RAG.initialize_rag_system env force st = Ok (inst, st') ->
     RAG.rag_instance st' = Some inst /\
     RAG.pdf_files (RAG.fs st') = RAG.pdf_files (RAG.fs st) /\
     (RAG.rag_instance st = None -> RAG.cached_embeddings st' = true)).
Proof.
  split.
  - intros e st' H.
    destruct (init_st_raise _ _ _ _ _ H) as [[H1 [_ [H3 H4]]]|[H1 [H2 [H3 [H4 _]]]]].
    + left; auto.
    + right; auto.
  - intros inst st' H; apply init_proj_ok in H.
    destruct (init_st_ok _ _ _ _ _ H) as [H1 [H2 [H3 _]]]; auto.
Qed.

(** Without [force_recreate], initialising again right after a successful
    initialisation, with Chroma as able to open the store as before,
    returns the same instance and changes nothing: the second call loads
    the store the first one found or built, or finds the same empty
    corpus. *)
Theorem initialize_rag_system_idempotent (env env' : RAG.Env) (st : RAG.State)
  (inst : RAG.RAGSystem) (st' : RAG.State)
  (H : RAG.initialize_rag_system env false st = Ok (inst, st'))
  (Hopen : RAG.chroma_opens env' = RAG.chroma_opens env) :
  RAG.initialize_rag_system env' false st' = Ok (inst, st').
Proof.
  apply init_proj_ok; apply init_proj_ok in H.
  exact (init_false_idem env st inst st' H env' Hopen).
Qed.

Lemma initialize_rag_system_idempotent_witness :
  RAG.initialize_rag_system rag_env false state_empty
    = Ok ({| RAG.vectorstore := None |},
          {| RAG.rag_instance := Some {| RAG.vectorstore := None |};
             RAG.cached_embeddings := true; RAG.fs := RAG.fs state_empty |}) /\
  RAG.chroma_opens rag_env = RAG.chroma_opens rag_env /\
  RAG.initialize_rag_system rag_env false
    {| RAG.rag_instance := Some {| RAG.vectorstore := None |};
       RAG.cached_embeddings := true; RAG.fs := RAG.fs state_empty |}
    = Ok ({| RAG.vectorstore := None |},
          {| RAG.rag_instance := Some {| RAG.vectorstore := None |};
             RAG.cached_embeddings := true; RAG.fs := RAG.fs state_empty |}).
Proof.
  split; [vm_compute; reflexivity|].
  split; [reflexivity|].
  apply (initialize_rag_system_idempotent rag_env rag_env state_empty).
  - vm_compute; reflexivity.
  - reflexivity.
Defined.

(** With [force_recreate] and at least one document, when the call
    returns, the new chunks have been added to the persisted collection
    instead of replacing it: the index holds the old entries followed by
    the new chunks, and the directory on disk holds the same collection. *)
Theorem initialize_force_recreate_accumulates (env : RAG.Env) (st : RAG.State)
  (inst : RAG.RAGSystem) (st' : RAG.State)
  (H : RAG.initialize_rag_system env true st = Ok (inst, st'))
  (Hdocs : RAG.load_documents (RAG.fs st) <> []) :
  let old := match RAG.vectorstore_dir (RAG.fs st) with Some o => o | None => [] end in
  let chunks := RAG.split_documents env (RAG.load_documents (RAG.fs st)) in
  RAG.vectorstore inst = Some (old ++ chunks) /\
  RAG.vectorstore_dir (RAG.fs st') = RAG.vectorstore inst /\
  RAG.index_size inst = (length old + length chunks)%nat.
Proof.
  apply init_proj_ok in H; revert H.
  init_split env true st; intro H; try discriminate H;
    try (exfalso; apply Hdocs; reflexivity);
    injection H as <- <-; cbv zeta; rewrite ?Ed, ?Edocs;
    (split; [reflexivity|]; split; [reflexivity|]);
    unfold RAG.index_size; cbn [RAG.vectorstore]; first [apply length_app|reflexivity].
Qed.

Lemma initialize_force_recreate_accumulates_witness :
  RAG.index_size
    (fst (match RAG.initialize_rag_system rag_env true state_pdf_and_store with
          | Ok p => p | Raise _ => ({| RAG.vectorstore := None |}, state_pdf_and_store) end))
  = 2%nat.
Proof.
  destruct (RAG.initialize_rag_system rag_env true state_pdf_and_store)
    as [[inst st']|e] eqn:E; [|vm_compute in E; discriminate E].
  destruct (initialize_force_recreate_accumulates rag_env state_pdf_and_store inst st' E)
    as [_ [_ Hs]]; [vm_compute; discriminate|].
  cbn [fst]; rewrite Hs; vm_compute; reflexivity.
Defined.

(** Without [force_recreate], an existing store directory that Chroma can
    open is loaded as it is, even when the PDF folder has changed since it
    was built: the index is the persisted collection and no file is
    written. *)
Theorem initialize_loads_persisted_store (env : RAG.Env) (st : RAG.State)
  (stored : RAG.Store) (inst : RAG.RAGSystem) (st' : RAG.State)
  (Hopen : RAG.chroma_opens env = true)
  (Hdir : RAG.vectorstore_dir (RAG.fs st) = Some stored)
  (H : RAG.initialize_rag_system env false st = Ok (inst, st')) :
  RAG.vectorstore inst = Some stored /\ RAG.fs st' = RAG.fs st.
Proof.
  apply init_proj_ok in H; revert H.
  init_split env false st; intro H; try discriminate H;
    try discriminate Hdir; try discriminate Hopen;
    injection Hdir as <-; injection H as <- <-; split; reflexivity.
Qed.

Lemma initialize_loads_persisted_store_witness :
  RAG.vectorstore
    (fst (match RAG.initialize_rag_system rag_env false state_pdf_and_store with
          | Ok p => p | Raise _ => ({| RAG.vectorstore := None |}, state_pdf_and_store) end))
  = Some [sample_doc].
Proof.
  destruct (RAG.initialize_rag_system rag_env false state_pdf_and_store)
    as [[inst st']|e] eqn:E; [|vm_compute in E; discriminate E].
  destruct (initialize_loads_persisted_store rag_env state_pdf_and_store [sample_doc]
              inst st' eq_refl eq_refl E) as [Hv _].
  exact Hv.
Defined.

(** [get_rag_system] never returns [None].  Once it has returned, every
    later call returns the same instance and state.  It raises only on
    first use: when the embedding model cannot be loaded, with the state
    unchanged; or when Chroma cannot open or write the collection, and then
    [_rag_instance] keeps an instance without store, which every later
    call returns without building the index again. *)
Theorem get_rag_system_stable (env : RAG.Env) (st : RAG.State) :
  (forall r st', RAG.get_rag_system env st = (Ok r, st') ->
     exists i, r = Some i /\ RAG.rag_instance st' = Some i /\
       forall env', RAG.get_rag_system env' st' = (Ok r, st')) /\
  (forall e st', RAG.get_rag_system env st = (Raise e, st') ->
     RAG.rag_instance st = None /\
     ((RAG.embedding_model_loads env = false /\ st' = st) \/
      ((RAG.chroma_opens env = false \/ RAG.chroma_adds env = false) /\
       forall env', RAG.get_rag_system env' st'
                    = (Ok (Some {| RAG.vectorstore := None |}), st')))).
Proof.
  split.
  - intros r st' H; destruct (get_rag_system_ok _ _ _ _ H) as [i [-> [Hi _]]].
    exists i; split; [reflexivity|]; split; [exact Hi|].
    intro env'; apply get_rag_system_instance; exact Hi.
  - intros e st' H; destruct (get_rag_system_raise _ _ _ _ H) as [H1 [H2|[H2 H3]]].
    + split; [exact H1|left; exact H2].
    + split; [exact H1|right; split; [exact H2|]].
      intro env'; apply get_rag_system_instance; exact H3.
Qed.

(** [search_documents] searches the instance [get_rag_system] returns.  It
    raises only on first use: when the embedding model cannot be loaded,
    with the state unchanged; or when Chroma cannot open or write the
    collection, and then every later call returns the empty list. *)
Theorem search_documents_uses_instance (env : RAG.Env) (st : RAG.State)
  (query : pystr) (k : Z) :
  (forall rs st', RAG.search_documents env st query k = (Ok rs, st') ->
     exists i, RAG.rag_instance st' = Some i /\ rs = RAG.search env i query k) /\
  (forall e st', RAG.search_documents env st query k = (Raise e, st') ->
     RAG.rag_instance st = None /\
     ((RAG.embedding_model_loads env = false /\ st' = st) \/
      ((RAG.chroma_opens env = false \/ RAG.chroma_adds env = false) /\
       forall env' query' k', RAG.search_documents env' st' query' k' = (Ok [], st')))).
Proof.
  unfold RAG.search_documents.
  destruct (RAG.get_rag_system env st) as [[r|e] st1] eqn:E; cbn [fst snd]; split.
  - intros rs st' H.
    destruct (get_rag_system_ok _ _ _ _ E) as [i [-> [Hi _]]].
    injection H as <- <-; exists i; auto.
  - intros e st' H; destruct r as [i|]; discriminate H.
  - intros rs st' H; discriminate H.
  - intros e' st' H; injection H as <- <-.
    destruct (get_rag_system_raise _ _ _ _ E) as [H1 [H2|[H2 H3]]].
    + split; [exact H1|left; exact H2].
    + split; [exact H1|right; split; [exact H2|]].
      intros env' query' k'; rewrite (get_rag_system_instance env' st1 _ H3).
      reflexivity.
Qed.

(** [create_error_response] always builds a failure carrying the message
    and no data; the error details are left out exactly when code, field,
    rejected value and reason are all falsy, and otherwise keep them, with
    the reason falling back to the message when it is falsy. *)
Theorem create_error_response_fields (message : pystr) (code field : option pystr)
  (rejected_value : option pyval) (reason : option pystr) :
  let r := API.create_error_response message code field rejected_value reason in
  API.success r = false /\ API.api_message r = Some message /\ API.data r = None /\
  (API.error r = None <->
     API.opt_str_truthy code = false /\ API.opt_str_truthy field = false /\
     match rejected_value with Some v => truthy v | None => false end = false /\
     API.opt_str_truthy reason = false) /\
  (forall ed, API.error r = Some ed ->
     API.code ed = code /\ API.field ed = field /\ API.rejected_value ed = rejected_value /\
     (API.opt_str_truthy reason = true -> API.err_reason ed = reason) /\
     (API.opt_str_truthy reason = false -> API.err_reason ed = Some message)).
Proof.
  cbv zeta; unfold API.create_error_response; cbv zeta;
    cbn [API.success API.api_message API.data API.error].
  split; [reflexivity|]; split; [reflexivity|]; split; [reflexivity|].
  destruct (API.opt_str_truthy code) eqn:Hc, (API.opt_str_truthy field) eqn:Hf,
    (match rejected_value with Some v => truthy v | None => false end) eqn:Hv,
    (API.opt_str_truthy reason) eqn:Hr; cbn [orb];
    first
      [ split; [split; [intros _; repeat split | reflexivity] | intros ed H; discriminate H]
      | split; [split; [intro H; discriminate H | intros [H1 [H2 [H3 H4]]]; discriminate] |];
        intros ed H; injection H as <-;
        cbn [API.code API.field API.rejected_value API.err_reason];
        split; [reflexivity|]; split; [reflexivity|]; split; [reflexivity|];
        destruct reason as [s|]; cbn [API.opt_str_truthy truthy] in Hr;
        try discriminate Hr; try rewrite Hr;
        split; intro Hr'; try discriminate Hr'; reflexivity ].
Qed.

(** [/api/rag/status] fails (code [RAG_STATUS_ERROR]) exactly when
    [get_rag_system] raises, leaving the state that call left; otherwise
    it succeeds with the state [get_rag_system] left, and its [ready] flag
    is [True] exactly when the instance holds a vector store. *)
Theorem rag_status_ready (env : RAG.Env) (collection_count : RAG.Store -> res Z)
  (st : RAG.State) :
  (forall e st', RAG.get_rag_system env st = (Raise e, st') ->
     API.success (fst (Main.rag_status env collection_count st)) = false /\
     option_map API.code (API.error (fst (Main.rag_status env collection_count st)))
       = Some (Some (u "RAG_STATUS_ERROR")) /\
     snd (Main.rag_status env collection_count st) = st') /\
  (forall r st', RAG.get_rag_system env st = (Ok r, st') ->
     exists i d, r = Some i /\
       snd (Main.rag_status env collection_count st) = st' /\
       API.success (fst (Main.rag_status env collection_count st)) = true /\
       API.data (fst (Main.rag_status env collection_count st)) = Some (PDict d) /\
       dict_get d (u "ready") PNone
         = PBool (match RAG.vectorstore i with Some _ => true | None => false end)).
Proof.
  unfold Main.rag_status.
  destruct (RAG.get_rag_system env st) as [[r|e] st1] eqn:E; cbn [fst snd]; split;
    intros ? ? H; try discriminate H.
  - injection H as <- <-; destruct (get_rag_system_ok _ _ _ _ E) as [i [-> _]].
    exists i; cbv beta iota.
    destruct (RAG.vectorstore i) as [store|]; [destruct (collection_count store)|].
    all: eexists; split; [reflexivity|]; split; [reflexivity|]; split; [reflexivity|].
    all: split; [reflexivity|]; vm_compute; reflexivity.
  - injection H as <- <-.
    split; [reflexivity|]; split; [vm_compute; reflexivity|reflexivity].
Qed.

(** [/api/rag/reload] never takes its [no_documents] branch: whenever
    [initialize_rag_system(force_recreate=False)] returns, it reports
    success with the state that call left, and reloading again right after
    (Chroma as able to open the store as before) gives the same response
    and state.  It fails (code [RAG_RELOAD_ERROR]) with the state the
    raising call left, either on first use when the embedding model cannot
    be loaded (state unchanged), or when there are documents to index and
    Chroma cannot open or write the collection. *)
Theorem rag_reload_outcome (env : RAG.Env) (st : RAG.State) :
  (forall inst st', RAG.initialize_rag_system env false st = Ok (inst, st') ->
     Main.rag_reload env st
       = (API.create_success_response None (Some (u "RAG 시스템 재로드 완료")), st') /\
     forall env', RAG.chroma_opens env' = RAG.chroma_opens env ->
       Main.rag_reload env' st' = Main.rag_reload env st) /\
  (forall e st', RAG.initialize_rag_system_st env false st = (Raise e, st') ->
     API.success (fst (Main.rag_reload env st)) = false /\
     option_map API.code (API.error (fst (Main.rag_reload env st)))
       = Some (Some (u "RAG_RELOAD_ERROR")) /\
     snd (Main.rag_reload env st) = st' /\
     ((RAG.rag_instance st = None /\ RAG.embedding_model_loads env = false /\ st' = st) \/
      (RAG.load_documents (RAG.fs st) <> [] /\
       (RAG.chroma_opens env = false \/ RAG.chroma_adds env = false)))).
Proof.
  split.
  - intros inst st' H; apply init_proj_ok in H.
    assert (Hr : forall env0 st0, RAG.initialize_rag_system_st env0 false st0 = (Ok inst, st') ->
              Main.rag_reload env0 st0
              = (API.create_success_response None (Some (u "RAG 시스템 재로드 완료")), st')).
    { intros env0 st0 H0; unfold Main.rag_reload; rewrite H0; reflexivity. }
    split; [exact (Hr _ _ H)|].
    intros env' Hop; rewrite (Hr _ _ H); apply Hr; exact (init_false_idem _ _ _ _ H env' Hop).
  - intros e st' H.
    assert (Ho : snd (Main.rag_reload env st) = st' /\
                 API.success (fst (Main.rag_reload env st)) = false /\
                 option_map API.code (API.error (fst (Main.rag_reload env st)))
                 = Some (Some (u "RAG_RELOAD_ERROR"))).
    { unfold Main.rag_reload; rewrite H; cbn [fst snd].
      split; [reflexivity|]; split; [reflexivity|vm_compute; reflexivity]. }
    destruct Ho as [Hs [Hf Hc]].
    split; [exact Hf|]; split; [exact Hc|]; split; [exact Hs|].
    destruct (init_st_raise _ _ _ _ _ H) as [[H1 [_ [H3 H4]]]|[H1 [H2 _]]].
    + left; auto.
    + right; auto.
Qed.
